(** * crypto_fetcher.py: retrying market-data fetch and spreadsheet export

    A shallow embedding of [fetch_crypto_data], [save_to_excel] and [main]
    of [src/crypto_fetcher.py].  The program talks to the network, the
    clock, the console and the file system; these are modelled as an
    [environment] of answers and a [world] that records every effect in
    the order it happens.  Python exceptions are an explicit outcome that
    keeps the effects performed before the raise. *)

From Stdlib Require Import List String Ascii ZArith Lia Bool Arith Permutation.
Import ListNotations.

Local Open Scope string_scope.
Local Open Scope Z_scope.
Local Open Scope list_scope.

(* ===================================================================== *)
(** ** Data model *)
(* ===================================================================== *)

(** A JSON scalar as found in a market record.  Numbers are kept as the
    decimal literal [mantissa * 10 ^ exponent]; the program never computes
    with them, it only moves them into the table. *)
Inductive value : Type :=
| VStr (s : string)
| VNum (mantissa exponent : Z)
| VBool (b : bool)
| VNull.

(** One asset: a Python dict, in insertion order. *)
Definition MarketRecord : Type := list (string * value).

(** What [response.json()] yields on the market endpoint: a list of dicts. *)
Definition Snapshot : Type := list MarketRecord.

(** A pandas cell: a value taken from a record, or NaN where the record
    has no such key. *)
Inductive cell : Type :=
| CVal (v : value)
| CNaN.

(** A [pandas.DataFrame] with the default integer index: column labels in
    order, and one list of cells per row. *)
Record DataFrame : Type := mkDataFrame {
  df_columns : list string;
  df_rows : list (list cell)
}.

(** A [datetime.datetime] value. *)
Record datetime : Type := mkDatetime {
  year : Z; month : Z; day : Z; hour : Z; minute : Z; second : Z
}.

(** Instances of [Exception] that the calls of this program raise. *)
Inductive exn : Type :=
| RequestException (msg : string)
| JSONDecodeError (msg : string)
| KeyError (missing : list string)
| ValueError (msg : string)
| OSError (msg : string)
| ImportError (msg : string).

(** A value of the query-string dictionary [PARAMS]. *)
Inductive param : Type :=
| PStr (s : string)
| PInt (n : Z)
| PBool (b : bool).

(** A [requests.Response]: the status code, the outcome of [.json()] and
    the raw [.text]. *)
Record response : Type := mkResponse {
  status_code : Z;
  json : exn + Snapshot;
  text : string
}.

(** Every [print] of the program, one constructor per format string. *)
Inductive message : Type :=
| MsgAttempt (attempt max_retries : Z)   (* API fetch attempt {attempt+1}/{max_retries} *)
| MsgStatus (code : Z)                   (* API Response Status Code: {code} *)
| MsgFetched (n : nat)                   (* Successfully fetched data for {n} cryptocurrencies *)
| MsgRateLimit                           (* Rate limit exceeded, waiting before retry... *)
| MsgErrorFetching (code : Z)            (* Error fetching data: {code} *)
| MsgResponseContent (prefix : string)   (* Response content: {text[:200]}... *)
| MsgFetchException (e : exn)            (* Exception during API fetch: {e} *)
| MsgAllFailed                           (* All API fetch attempts failed *)
| MsgPreparing (path : string)           (* Preparing to save data to {path} *)
| MsgMissingColumn (col : string)        (* Warning: Column '{col}' not found in API response *)
| MsgCreated (path : string) (size : Z)  (* Excel file created successfully: {path} ({size} bytes) *)
| MsgNotCreated (path : string)          (* Failed to create Excel file at {path} *)
| MsgErrorSaving (e : exn)               (* Error saving to Excel: {e} *)
| MsgStarting                            (* Starting cryptocurrency data fetching process... *)
| MsgNoData                              (* No data retrieved from API. Exiting. *)
| MsgCompleted (path : string)           (* Process completed successfully. Data saved to {path} *)
| MsgSaveFailed.                         (* Process failed to save data. *)

(** The effects of the program that the outside can observe. *)
Inductive event : Type :=
| EvPrint (m : message)
| EvGet (url : string) (params : list (string * param))
| EvSleep (seconds : Z)
| EvMakedirs (directory : string)
| EvToExcel (path : string) (df : DataFrame).

(** The answers of the outside world.  [http k] answers the [k]-th call of
    [requests.get] (counted from 0), [clock k] is what the [k]-th call of
    [datetime.now()] reads; the file-system calls answer by path. *)
Record environment : Type := mkEnvironment {
  http : nat -> exn + response;
  clock : nat -> datetime;
  makedirs_raises : string -> option exn;
  to_excel_raises : string -> DataFrame -> option exn;
  path_exists : string -> bool;
  path_getsize : string -> exn + Z
}.

(** The state threaded through the program: how many requests were issued,
    how often the clock was read, and the effects so far, oldest first. *)
Record world : Type := mkWorld {
  n_get : nat;
  n_now : nat;
  trace : list event
}.

Definition initial_world : world := mkWorld 0 0 [].

(* ===================================================================== *)
(** ** Effects: state with exceptions *)
(* ===================================================================== *)

Inductive outcome (A : Type) : Type :=
| Ret (a : A)
| Raise (e : exn).
Arguments Ret {A} a.
Arguments Raise {A} e.

Definition M (A : Type) : Type := world -> outcome A * world.

Definition ret {A} (a : A) : M A := fun w => (Ret a, w).

Definition raise {A} (e : exn) : M A := fun w => (Raise e, w).

Definition bind {A B} (c : M A) (k : A -> M B) : M B :=
  fun w =>
    match c w with
    | (Ret a, w') => k a w'
    | (Raise e, w') => (Raise e, w')
    end.

(** [try: c  except Exception as e: handler e].  The effects [c] performed
    before it raised stay in the world. *)
Definition try_except {A} (c : M A) (handler : exn -> M A) : M A :=
  fun w =>
    match c w with
    | (Ret a, w') => (Ret a, w')
    | (Raise e, w') => handler e w'
    end.

Declare Scope py_scope.
Delimit Scope py_scope with py.
Notation "x <- c ;; k" := (bind c (fun x => k))
  (at level 100, c at next level, right associativity) : py_scope.
Notation "c ;; k" := (bind c (fun _ => k))
  (at level 100, right associativity) : py_scope.
Local Open Scope py_scope.

Definition emit (e : event) : M unit :=
  fun w => (Ret tt, mkWorld (n_get w) (n_now w) (trace w ++ [e])).

Definition print (m : message) : M unit := emit (EvPrint m).

(** [time.sleep(seconds)] *)
Definition sleep (seconds : Z) : M unit := emit (EvSleep seconds).

(* ===================================================================== *)
(** ** pandas, datetime and os.path, as far as the program uses them *)
(* ===================================================================== *)

(** [c in l] on column labels. *)
Definition mem (c : string) (l : list string) : bool := existsb (String.eqb c) l.

(** [d.get(k)] on a record. *)
Fixpoint dict_get (k : string) (r : MarketRecord) : option value :=
  match r with
  | [] => None
  | (k', v) :: r' => if String.eqb k k' then Some v else dict_get k r'
  end.

(** The labels [pd.DataFrame] finds in a list of dicts: every key, in the
    order in which it is first met. *)
Definition add_keys (cols : list string) (r : MarketRecord) : list string :=
  fold_left (fun acc kv => if mem (fst kv) acc then acc else acc ++ [fst kv]) r cols.

Definition frame_columns (data : Snapshot) : list string :=
  fold_left add_keys data [].

Definition record_cell (r : MarketRecord) (c : string) : cell :=
  match dict_get c r with
  | Some v => CVal v
  | None => CNaN
  end.

(** [pd.DataFrame(data)] for a list of dicts: one row per record, NaN where
    a record lacks a key that another record has.  The labels, their
    order and the number of rows are those of pandas.  A cell carries the
    record's value as it is: the conversion pandas applies to a whole
    column (a JSON null that becomes NaN, an integer that becomes a float
    next to a missing entry) is not modelled, and no statement below
    depends on the value of a cell taken from a record. *)
Definition DataFrame_of (data : Snapshot) : DataFrame :=
  let cols := frame_columns data in
  mkDataFrame cols (map (fun r => map (record_cell r) cols) data).

(** Position of the first occurrence of a label. *)
Fixpoint index_of (c : string) (cols : list string) : nat :=
  match cols with
  | [] => O
  | c' :: cols' => if String.eqb c c' then O else S (index_of c cols')
  end.

Definition cell_at (cols : list string) (row : list cell) (c : string) : cell :=
  nth (index_of c cols) row CNaN.

(** [df[cols]] with a list of labels: the named columns in the order asked
    for; [KeyError] when a label is not a column of [df]. *)
Definition getitem (df : DataFrame) (cols : list string) : M DataFrame :=
  match filter (fun c => negb (mem c (df_columns df))) cols with
  | [] => ret (mkDataFrame cols
                 (map (fun row => map (cell_at (df_columns df) row) cols) (df_rows df)))
  | missing => raise (KeyError missing)
  end.

Fixpoint set_nth {A : Type} (n : nat) (x : A) (l : list A) : list A :=
  match l, n with
  | [], _ => []
  | _ :: l', O => x :: l'
  | y :: l', S n' => y :: set_nth n' x l'
  end.

(** [df[col] = v] with a scalar [v]: an existing column is overwritten in
    place, a new one is added as the last column; every row gets [v]. *)
Definition setitem (df : DataFrame) (col : string) (v : cell) : DataFrame :=
  if mem col (df_columns df) then
    mkDataFrame (df_columns df)
      (map (set_nth (index_of col (df_columns df)) v) (df_rows df))
  else
    mkDataFrame (df_columns df ++ [col]) (map (fun row => row ++ [v]) (df_rows df)).

(** [l.remove(x)]: drops the first occurrence; [None] stands for the
    [ValueError] of a list that does not hold [x]. *)
Fixpoint list_remove (x : string) (l : list string) : option (list string) :=
  match l with
  | [] => None
  | y :: l' =>
      if String.eqb x y then Some l'
      else match list_remove x l' with
           | Some l'' => Some (y :: l'')
           | None => None
           end
  end.

Definition digit (n : Z) : ascii := ascii_of_nat (48 + Z.to_nat (n mod 10)).

(** Zero-padded decimal fields of [strftime]. *)
Definition pad2 (n : Z) : string :=
  String (digit (n / 10)) (String (digit n) EmptyString).

Definition pad4 (n : Z) : string :=
  String (digit (n / 1000)) (String (digit (n / 100)) (pad2 n)).

(** [t.strftime("%Y-%m-%d")] *)
Definition strftime_date (t : datetime) : string :=
  pad4 (year t) ++ "-" ++ pad2 (month t) ++ "-" ++ pad2 (day t).

(** [t.strftime("%Y-%m-%d %H:%M:%S")] *)
Definition strftime_datetime (t : datetime) : string :=
  strftime_date t ++ " " ++ pad2 (hour t) ++ ":" ++ pad2 (minute t) ++ ":" ++ pad2 (second t).

Fixpoint ends_with_slash (s : string) : bool :=
  match s with
  | EmptyString => false
  | String c EmptyString => Ascii.eqb c "/"
  | String _ s' => ends_with_slash s'
  end.

(** [os.path.join(directory, filename)] on POSIX, for a [filename] that
    does not start with a slash. *)
Definition path_join (directory filename : string) : string :=
  if String.eqb directory "" then filename
  else if ends_with_slash directory then directory ++ filename
  else directory ++ "/" ++ filename.

(* ===================================================================== *)
(** ** fetch_crypto_data *)
(* ===================================================================== *)

Definition API_URL : string := "https://api.coingecko.com/api/v3/coins/markets".

Definition PARAMS : list (string * param) :=
  [ ("vs_currency", PStr "usd");
    ("order", PStr "market_cap_desc");
    ("per_page", PInt 100);
    ("page", PInt 1);
    ("sparkline", PBool false) ].

(** [range(n)] for a Python int [n]: empty when [n <= 0]. *)
Definition range (n : Z) : list Z := map Z.of_nat (seq 0 (Z.to_nat n)).

(** [len(l)] of a Python list. *)
Definition len {A : Type} (l : list A) : nat := List.length l.

(** [s[:n]] *)
Definition slice_to (n : nat) (s : string) : string := substring 0 n s.

Section Program.

Variable env : environment.

(** [requests.get(url, params=params)]: the call is recorded, the request
    counter advances, and the environment's answer is returned or raised. *)
Definition requests_get (url : string) (params : list (string * param)) : M response :=
  fun w =>
    let w' := mkWorld (S (n_get w)) (n_now w) (trace w ++ [EvGet url params]) in
    match http env (n_get w) with
    | inr r => (Ret r, w')
    | inl e => (Raise e, w')
    end.

(** [response.json()] *)
Definition response_json (r : response) : M Snapshot :=
  match json r with
  | inr data => ret data
  | inl e => raise e
  end.

(** The body of the [for attempt in range(max_retries)] loop.  [Some data]
    stands for [return data]; [None] for falling through to the next
    iteration. *)
Definition fetch_attempt (max_retries attempt : Z) : M (option Snapshot) :=
  try_except
    (print (MsgAttempt (attempt + 1) max_retries) ;;
     response <- requests_get API_URL PARAMS ;;
     print (MsgStatus (status_code response)) ;;
     if status_code response =? 200 then
       data <- response_json response ;;
       print (MsgFetched (len data)) ;;
       ret (Some data)
     else if status_code response =? 429 then
       print MsgRateLimit ;;
       sleep 60 ;;
       ret None
     else
       print (MsgErrorFetching (status_code response)) ;;
       print (MsgResponseContent (slice_to 200 (text response))) ;;
       sleep 5 ;;
       ret None)
    (fun e =>
       print (MsgFetchException e) ;;
       sleep 5 ;;
       ret None).

Fixpoint fetch_loop (max_retries : Z) (attempts : list Z) : M (option Snapshot) :=
  match attempts with
  | [] =>
      print MsgAllFailed ;;
      ret None
  | attempt :: rest =>
      r <- fetch_attempt max_retries attempt ;;
      match r with
      | Some data => ret (Some data)
      | None => fetch_loop max_retries rest
      end
  end.

Definition fetch_crypto_data (max_retries : Z) : M (option Snapshot) :=
  fetch_loop max_retries (range max_retries).

(* ---------------------------------------------------------------------- *)
(** *** save_to_excel *)

(** [os.makedirs(directory, exist_ok=True)] *)
Definition makedirs (directory : string) : M unit :=
  match makedirs_raises env directory with
  | Some e => raise e
  | None => emit (EvMakedirs directory)
  end.

(** [datetime.now()] *)
Definition now : M datetime :=
  fun w => (Ret (clock env (n_now w)), mkWorld (n_get w) (S (n_now w)) (trace w)).

(** [df.to_excel(file_path, index=False)] *)
Definition to_excel (df : DataFrame) (file_path : string) : M unit :=
  match to_excel_raises env file_path df with
  | Some e => raise e
  | None => emit (EvToExcel file_path df)
  end.

(** [os.path.getsize(file_path)] *)
Definition getsize (file_path : string) : M Z :=
  match path_getsize env file_path with
  | inr size => ret size
  | inl e => raise e
  end.

Definition columns_to_keep : list string :=
  [ "id"; "symbol"; "name"; "current_price"; "market_cap";
    "total_volume"; "price_change_percentage_24h" ].

(** The loop
[[
    for col in columns_to_keep:
        if col not in df.columns:
            print(...)
            columns_to_keep.remove(col)
]]
    A Python list iterator holds an index [i] into the list it walks: each
    step yields [keep[i]] if [i < len(keep)] and advances [i], whatever the
    body did to the list meanwhile.  [fuel] bounds the number of steps. *)
Fixpoint check_columns (fuel : nat) (df_cols : list string) (i : nat)
    (keep : list string) : M (list string) :=
  match fuel with
  | O => ret keep
  | S fuel' =>
      match nth_error keep i with
      | None => ret keep
      | Some col =>
          if negb (mem col df_cols) then
            print (MsgMissingColumn col) ;;
            match list_remove col keep with
            | Some keep' => check_columns fuel' df_cols (S i) keep'
            | None => raise (ValueError "list.remove(x): x not in list")
            end
          else check_columns fuel' df_cols (S i) keep
      end
  end.

(** The [try] block of [save_to_excel]. *)
Definition save_to_excel_body (data : Snapshot) (directory : string) : M (option string) :=
  makedirs directory ;;
  t <- now ;;
  let today := strftime_date t in
  let filename := ("crypto_data_" ++ today ++ ".xlsx")%string in
  let file_path := path_join directory filename in
  print (MsgPreparing file_path) ;;
  let df := DataFrame_of data in
  keep <- check_columns (len columns_to_keep) (df_columns df) 0 columns_to_keep ;;
  df <- getitem df keep ;;
  t' <- now ;;
  let df := setitem df "timestamp" (CVal (VStr (strftime_datetime t'))) in
  to_excel df file_path ;;
  if path_exists env file_path then
    file_size <- getsize file_path ;;
    print (MsgCreated file_path file_size) ;;
    ret (Some file_path)
  else
    print (MsgNotCreated file_path) ;;
    ret None.

Definition save_to_excel (data : Snapshot) (directory : string) : M (option string) :=
  try_except
    (save_to_excel_body data directory)
    (fun e =>
       print (MsgErrorSaving e) ;;
       ret None).

(* ---------------------------------------------------------------------- *)
(** *** main *)

Definition default_max_retries : Z := 3.
Definition default_directory : string := "data".

(** Truth value of [data] in [not data]: [None] and the empty list are
    false. *)
Definition truthy_data (data : option Snapshot) : bool :=
  match data with
  | None => false
  | Some [] => false
  | Some (_ :: _) => true
  end.

Definition len_data (data : option Snapshot) : nat :=
  match data with
  | Some l => len l
  | None => O
  end.

(** Truth value of [excel_path]: [None] and the empty string are false. *)
Definition truthy_path (p : option string) : bool :=
  match p with
  | None => false
  | Some s => negb (String.eqb s "")
  end.

Definition main : M unit :=
  print MsgStarting ;;
  data <- fetch_crypto_data default_max_retries ;;
  if negb (truthy_data data) || Nat.eqb (len_data data) 0 then
    print MsgNoData ;;
    ret tt
  else
    match data with
    | Some snapshot =>
        excel_path <- save_to_excel snapshot default_directory ;;
        if truthy_path excel_path then
          match excel_path with
          | Some p => print (MsgCompleted p)
          | None => ret tt
          end
        else print MsgSaveFailed
    | None => ret tt
    end.

End Program.

(* ===================================================================== *)
(** ** Reading a run *)
(* ===================================================================== *)

(** What one attempt hands back: the parsed body when the status is 200
    and [.json()] succeeds, nothing otherwise. *)
Definition parsed (o : exn + response) : option Snapshot :=
  match o with
  | inr r =>
      if status_code r =? 200 then
        match json r with
        | inr data => Some data
        | inl _ => None
        end
      else None
  | inl _ => None
  end.

(** The pause that follows an attempt that handed nothing back. *)
Definition retry_delay (o : exn + response) : Z :=
  match o with
  | inr r => if status_code r =? 429 then 60 else 5
  | inl _ => 5
  end.

(** The events of one attempt, given the answer to its request. *)
Definition attempt_events (max_retries attempt : Z) (o : exn + response) : list event :=
  [EvPrint (MsgAttempt (attempt + 1) max_retries); EvGet API_URL PARAMS] ++
  match o with
  | inl e => [EvPrint (MsgFetchException e); EvSleep 5]
  | inr r =>
      EvPrint (MsgStatus (status_code r)) ::
      if status_code r =? 200 then
        match json r with
        | inr data => [EvPrint (MsgFetched (len data))]
        | inl e => [EvPrint (MsgFetchException e); EvSleep 5]
        end
      else if status_code r =? 429 then
        [EvPrint MsgRateLimit; EvSleep 60]
      else
        [EvPrint (MsgErrorFetching (status_code r));
         EvPrint (MsgResponseContent (slice_to 200 (text r)));
         EvSleep 5]
  end.

(** The events of consecutive attempts that all hand nothing back, the
    first of them answered by [http env first]. *)
Fixpoint failed_events (env : environment) (max_retries : Z) (first : nat)
    (attempts : list Z) : list event :=
  match attempts with
  | [] => []
  | a :: rest =>
      attempt_events max_retries a (http env first) ++
      failed_events env max_retries (S first) rest
  end.

(** Network and timing view of a trace: requests and waits only. *)
Inductive io : Type :=
| Request
| Wait (seconds : Z).

Fixpoint io_of (t : list event) : list io :=
  match t with
  | [] => []
  | EvGet _ _ :: t' => Request :: io_of t'
  | EvSleep s :: t' => Wait s :: io_of t'
  | _ :: t' => io_of t'
  end.

(** Requests and waits of [k] failed attempts in a row. *)
Definition failed_io (env : environment) (first k : nat) : list io :=
  flat_map (fun j => [Request; Wait (retry_delay (http env j))]) (seq first k).

Definition requests_in (t : list event) : nat :=
  List.length (filter (fun x => match x with Request => true | Wait _ => false end) (io_of t)).

(** The ways an attempt can fail, each with the pause the code takes after
    it: status 429, any other status that is not 200, an exception raised
    by the request, and a 200 whose body [.json()] cannot parse (which
    raises inside the same [try]). *)
Inductive fails_with_delay : exn + response -> Z -> Prop :=
| rate_limited (r : response) :
    status_code r = 429 -> fails_with_delay (inr r) 60
| other_status (r : response) :
    status_code r <> 200 -> status_code r <> 429 -> fails_with_delay (inr r) 5
| transport_exception (e : exn) :
    fails_with_delay (inl e) 5
| unparsable_body (r : response) (e : exn) :
    status_code r = 200 -> json r = inl e -> fails_with_delay (inr r) 5.

(* ---------------------------------------------------------------------- *)
(** *** The column check, read as a function of the list *)

(** What the column loop leaves in the list: a column found in the frame
    stays; a column not found is dropped, and the column right after it is
    never looked at (the iterator's index has moved past it), so it stays
    whether the frame has it or not. *)
Fixpoint kept_columns (df_cols cols : list string) : list string :=
  match cols with
  | [] => []
  | c :: rest =>
      if mem c df_cols then c :: kept_columns df_cols rest
      else match rest with
           | [] => []
           | c' :: rest' => c' :: kept_columns df_cols rest'
           end
  end.

(** The columns the loop warns about, in order. *)
Fixpoint warned_columns (df_cols cols : list string) : list string :=
  match cols with
  | [] => []
  | c :: rest =>
      if mem c df_cols then warned_columns df_cols rest
      else c :: match rest with
                | [] => []
                | _ :: rest' => warned_columns df_cols rest'
                end
  end.

Definition warnings (cols : list string) : list event :=
  map (fun c => EvPrint (MsgMissingColumn c)) cols.

(** The frame [save_to_excel] holds after [df = df[columns_to_keep]], when
    that selection does not raise. *)
Definition projection (data : Snapshot) : DataFrame :=
  let df := DataFrame_of data in
  let keep := kept_columns (df_columns df) columns_to_keep in
  mkDataFrame keep (map (fun row => map (cell_at (df_columns df) row) keep) (df_rows df)).

(** The allow-listed columns the snapshot has, and those it lacks. *)
Definition present_columns (data : Snapshot) : list string :=
  filter (fun c => mem c (frame_columns data)) columns_to_keep.

Definition absent_columns (data : Snapshot) : list string :=
  filter (fun c => negb (mem c (frame_columns data))) columns_to_keep.

(** Where a call of [save_to_excel] that starts in world [w] writes, and
    the frame it has built when it reaches [to_excel]. *)
Definition export_path (env : environment) (directory : string) (w : world) : string :=
  path_join directory ("crypto_data_" ++ strftime_date (clock env (n_now w)) ++ ".xlsx").

Definition export_frame (env : environment) (data : Snapshot) (w : world) : DataFrame :=
  setitem (projection data) "timestamp"
    (CVal (VStr (strftime_datetime (clock env (S (n_now w)))))).

(** The events a call of [save_to_excel] adds to the trace. *)
Definition export_events (env : environment) (data : Snapshot) (directory : string)
    (w : world) : list event :=
  skipn (List.length (trace w)) (trace (snd (save_to_excel env data directory w))).

(** The files written in a stretch of the trace. *)
Fixpoint written (t : list event) : list (string * DataFrame) :=
  match t with
  | [] => []
  | EvToExcel path df :: t' => (path, df) :: written t'
  | _ :: t' => written t'
  end.

Fixpoint remove_nth {A : Type} (n : nat) (l : list A) : list A :=
  match l, n with
  | [], _ => []
  | _ :: l', O => l'
  | x :: l', S n' => x :: remove_nth n' l'
  end.

(** A frame without the column labelled [c]. *)
Definition without_column (c : string) (df : DataFrame) : DataFrame :=
  if mem c (df_columns df) then
    mkDataFrame (remove_nth (index_of c (df_columns df)) (df_columns df))
                (map (remove_nth (index_of c (df_columns df))) (df_rows df))
  else df.

Definition is_digit (c : ascii) : bool :=
  (48 <=? nat_of_ascii c)%nat && (nat_of_ascii c <=? 57)%nat.

(** The shape [YYYY-MM-DD HH:MM:SS]. *)
Definition timestamp_shape (s : string) : bool :=
  match list_ascii_of_string s with
  | [y1; y2; y3; y4; s1; m1; m2; s2; d1; d2; s3; h1; h2; s4; n1; n2; s5; c1; c2] =>
      forallb is_digit [y1; y2; y3; y4; m1; m2; d1; d2; h1; h2; n1; n2; c1; c2]
      && Ascii.eqb s1 "-" && Ascii.eqb s2 "-" && Ascii.eqb s3 " "
      && Ascii.eqb s4 ":" && Ascii.eqb s5 ":"
  | _ => false
  end.

(* ---------------------------------------------------------------------- *)
(** *** Sample inputs *)

Definition sample_record (name : string) : MarketRecord :=
  [ ("id", VStr name); ("symbol", VStr "btc"); ("name", VStr name);
    ("current_price", VNum 4325112 (-2)); ("market_cap", VNum 85 10);
    ("total_volume", VNum 3 9); ("price_change_percentage_24h", VNum (-12) (-1));
    ("image", VStr "https://example.org/coin.png") ].

Definition sample_snapshot : Snapshot :=
  [ sample_record "bitcoin"; sample_record "ethereum"; sample_record "tether" ].

Definition sample_time : datetime := mkDatetime 2024 3 5 7 8 9.

Definition response_200 (data : Snapshot) : response :=
  mkResponse 200 (inr data) "[...]".

Definition response_429 : response :=
  mkResponse 429 (inl (JSONDecodeError "Expecting value")) "Too Many Requests".

Definition response_500 : response :=
  mkResponse 500 (inl (JSONDecodeError "Expecting value")) "Internal Server Error".

(** A machine on which nothing fails locally, with the given network. *)
Definition sample_env (answers : nat -> exn + response) : environment :=
  mkEnvironment answers (fun _ => sample_time) (fun _ => None) (fun _ _ => None)
    (fun _ => true) (fun _ => inr 5120).

(** 429 twice, then 200 with three records. *)
Definition answers_429_429_200 (k : nat) : exn + response :=
  match k with
  | O | S O => inr response_429
  | _ => inr (response_200 sample_snapshot)
  end.

Definition answers_500 (k : nat) : exn + response := inr response_500.

(** The columns warned about in a stretch of the trace. *)
Fixpoint warnings_in (t : list event) : list string :=
  match t with
  | [] => []
  | EvPrint (MsgMissingColumn c) :: t' => c :: warnings_in t'
  | _ :: t' => warnings_in t'
  end.

(** The events only [save_to_excel] produces. *)
Definition is_export_event (e : event) : bool :=
  match e with
  | EvMakedirs _ | EvToExcel _ _ => true
  | EvPrint (MsgPreparing _) | EvPrint (MsgMissingColumn _) | EvPrint (MsgCreated _ _)
  | EvPrint (MsgNotCreated _) | EvPrint (MsgErrorSaving _) => true
  | _ => false
  end.

Definition export_footprint (t : list event) : list event := filter is_export_event t.

(** The events a call of [main] adds to the trace. *)
Definition main_events (env : environment) (w : world) : list event :=
  skipn (List.length (trace w)) (trace (snd (main env w))).

(** A record without the given keys. *)
Definition without_keys (keys : list string) (r : MarketRecord) : MarketRecord :=
  filter (fun kv => negb (mem (fst kv) keys)) r.

(** Three records that lack the first two allow-listed columns. *)
Definition snapshot_without_id_symbol : Snapshot :=
  map (without_keys ["id"; "symbol"]) sample_snapshot.

(** The same machine with another clock. *)
Definition sample_env_at (t : datetime) : environment :=
  mkEnvironment answers_500 (fun _ => t) (fun _ => None) (fun _ _ => None)
    (fun _ => true) (fun _ => inr 5120).

(** A machine on which the output directory cannot be made. *)
Definition readonly_env : environment :=
  mkEnvironment answers_500 (fun _ => sample_time)
    (fun _ => Some (OSError "Read-only file system")) (fun _ _ => None)
    (fun _ => false) (fun _ => inl (OSError "No such file or directory")).

(** A machine without the spreadsheet engine: [to_excel] raises. *)
Definition no_engine_env : environment :=
  mkEnvironment answers_500 (fun _ => sample_time) (fun _ => None)
    (fun _ _ => Some (ImportError "No module named 'openpyxl'"))
    (fun _ => false) (fun _ => inl (OSError "No such file or directory")).

(* ---------------------------------------------------------------------- *)
(** *** Whole runs of the retry loop *)

(** The first body that parses among the answers [first], [first + 1], ...
    to [n] requests. *)
Fixpoint first_parsed (env : environment) (first n : nat) : option Snapshot :=
  match n with
  | O => None
  | S n' =>
      match parsed (http env first) with
      | Some data => Some data
      | None => first_parsed env (S first) n'
      end
  end.

(** How many of [n] allowed attempts are made: all of them, or those up to
    the first one that hands a body back. *)
Fixpoint attempts_made (env : environment) (first n : nat) : nat :=
  match n with
  | O => O
  | S n' =>
      match parsed (http env first) with
      | Some _ => 1%nat
      | None => S (attempts_made env (S first) n')
      end
  end.

(** Everything the loop adds to the trace. *)
Fixpoint fetch_events (env : environment) (max_retries : Z) (first : nat)
    (attempts : list Z) : list event :=
  match attempts with
  | [] => [EvPrint MsgAllFailed]
  | a :: rest =>
      attempt_events max_retries a (http env first) ++
      match parsed (http env first) with
      | Some _ => []
      | None => fetch_events env max_retries (S first) rest
      end
  end.

(** The events a call of [fetch_crypto_data] adds to the trace. *)
Definition fetch_new_events (env : environment) (max_retries : Z) (w : world) : list event :=
  skipn (List.length (trace w)) (trace (snd (fetch_crypto_data env max_retries w))).

(** Seconds spent waiting. *)
Fixpoint total_wait (l : list io) : Z :=
  match l with
  | [] => 0
  | Request :: l' => total_wait l'
  | Wait s :: l' => s + total_wait l'
  end.

Definition count_requests (l : list io) : nat :=
  List.length (filter (fun x => match x with Request => true | Wait _ => false end) l).

(** The diagnostics that quote a response body. *)
Fixpoint quoted_content (t : list event) : list string :=
  match t with
  | [] => []
  | EvPrint (MsgResponseContent p) :: t' => p :: quoted_content t'
  | _ :: t' => quoted_content t'
  end.

(* ---------------------------------------------------------------------- *)
(** *** Columns and dates *)

(** Two neighbours of the list are both missing from the frame. *)
Fixpoint adjacent_absent (df_cols cols : list string) : bool :=
  match cols with
  | [] => false
  | c :: rest =>
      match rest with
      | [] => false
      | c' :: _ =>
          (negb (mem c df_cols) && negb (mem c' df_cols)) || adjacent_absent df_cols rest
      end
  end.

(** A record has the key. *)
Definition has_key (c : string) (r : MarketRecord) : bool :=
  match dict_get c r with
  | Some _ => true
  | None => false
  end.

(** Calendar and wall-clock fields in the range in which [strftime] prints
    four, two, ... digits on every platform. *)
Definition valid_datetime (t : datetime) : Prop :=
  1000 <= year t <= 9999 /\ 1 <= month t <= 12 /\ 1 <= day t <= 31 /\
  0 <= hour t <= 23 /\ 0 <= minute t <= 59 /\ 0 <= second t <= 59.

(** A machine on which the written file cannot be found afterwards. *)
Definition vanishing_env : environment :=
  mkEnvironment answers_500 (fun _ => sample_time) (fun _ => None) (fun _ _ => None)
    (fun _ => false) (fun _ => inl (OSError "No such file or directory")).

(** A machine on which the size of the written file cannot be read. *)
Definition unreadable_env : environment :=
  mkEnvironment answers_500 (fun _ => sample_time) (fun _ => None) (fun _ _ => None)
    (fun _ => true) (fun _ => inl (OSError "Permission denied")).

(** A 500 whose body is longer than the quoted part. *)
Definition long_text : string :=
  let s16 := "0123456789abcdef" in
  let s64 := (s16 ++ s16 ++ s16 ++ s16)%string in
  (s64 ++ s64 ++ s64 ++ s64)%string.

Definition answers_long_500 (k : nat) : exn + response :=
  inr (mkResponse 500 (inl (JSONDecodeError "Expecting value")) long_text).

(* ---------------------------------------------------------------------- *)
(** *** Reading a timestamp back *)

(** The number a decimal digit stands for. *)
Definition digit_value (c : ascii) : Z := Z.of_nat (nat_of_ascii c) - 48.

(** The clock reading a text of the form [YYYY-MM-DD HH:MM:SS] denotes:
    the six decimal fields between the separators.  It is written from
    the format alone, not from the code that prints it. *)
Definition read_timestamp (s : string) : option datetime :=
  if timestamp_shape s then
    match list_ascii_of_string s with
    | [y1; y2; y3; y4; _; m1; m2; _; d1; d2; _; h1; h2; _; n1; n2; _; c1; c2] =>
        Some (mkDatetime
                (1000 * digit_value y1 + 100 * digit_value y2
                 + 10 * digit_value y3 + digit_value y4)
                (10 * digit_value m1 + digit_value m2)
                (10 * digit_value d1 + digit_value d2)
                (10 * digit_value h1 + digit_value h2)
                (10 * digit_value n1 + digit_value n2)
                (10 * digit_value c1 + digit_value c2))
    | _ => None
    end
  else None.

(** The world [main] hands to the fetch, and the outcome of that fetch. *)
Definition started (w : world) : world :=
  mkWorld (n_get w) (n_now w) (trace w ++ [EvPrint MsgStarting]).

Definition main_fetch (env : environment) (w : world) : outcome (option Snapshot) * world :=
  fetch_crypto_data env default_max_retries (started w).



(* ===================================================================== *)
(** ** Facts about fetch_crypto_data *)
(* ===================================================================== *)

Section FetchFacts.

Variable env : environment.

Lemma fetch_attempt_run (max_retries attempt : Z) (w : world) :
  fetch_attempt env max_retries attempt w =
  (Ret (parsed (http env (n_get w))),
   mkWorld (S (n_get w)) (n_now w)
           (trace w ++ attempt_events max_retries attempt (http env (n_get w)))).
Proof.
  unfold fetch_attempt, try_except, bind, print, sleep, emit, requests_get,
    response_json, attempt_events, parsed, ret, raise.
  cbn. destruct (http env (n_get w)) as [e | r]; cbn.
  - now rewrite <- !app_assoc.
  - destruct (status_code r =? 200).
    + destruct (json r) as [e | data]; cbn; now rewrite <- !app_assoc.
    + destruct (status_code r =? 429); cbn; now rewrite <- !app_assoc.
Qed.

(** A run of attempts that all hand nothing back goes through every one of
    them and then reports failure. *)
Lemma fetch_loop_all_fail (max_retries : Z) (attempts : list Z) :
  forall w,
    (forall j, (j < List.length attempts)%nat -> parsed (http env (n_get w + j)) = None) ->
    fetch_loop env max_retries attempts w =
    (Ret None,
     mkWorld (n_get w + List.length attempts) (n_now w)
             (trace w ++ failed_events env max_retries (n_get w) attempts
                     ++ [EvPrint MsgAllFailed])).
Proof.
  induction attempts as [| a rest IH]; intros w Hfail.
  - cbn. now rewrite Nat.add_0_r.
  - cbn [fetch_loop]. unfold bind at 1. rewrite fetch_attempt_run.
    pose proof (Hfail 0%nat ltac:(cbn; lia)) as H0. rewrite Nat.add_0_r in H0.
    rewrite H0. rewrite IH.
    + cbn [n_get n_now trace failed_events List.length].
      rewrite <- !app_assoc. f_equal. f_equal. lia.
    + intros j Hj. cbn [n_get].
      replace (S (n_get w) + j)%nat with (n_get w + S j)%nat by lia.
      apply Hfail. cbn. lia.
Qed.

(** Attempts that hand nothing back are passed over: the loop goes on with
    the remaining attempts from the world they leave. *)
Lemma fetch_loop_skip (max_retries : Z) (pre post : list Z) :
  forall w,
    (forall j, (j < List.length pre)%nat -> parsed (http env (n_get w + j)) = None) ->
    fetch_loop env max_retries (pre ++ post) w =
    fetch_loop env max_retries post
      (mkWorld (n_get w + List.length pre) (n_now w)
               (trace w ++ failed_events env max_retries (n_get w) pre)).
Proof.
  induction pre as [| a rest IH]; intros w Hfail.
  - cbn. rewrite Nat.add_0_r, app_nil_r. now destruct w.
  - cbn [app fetch_loop]. unfold bind at 1. rewrite fetch_attempt_run.
    pose proof (Hfail 0%nat ltac:(cbn; lia)) as H0. rewrite Nat.add_0_r in H0.
    rewrite H0. rewrite IH.
    + cbn [n_get n_now trace failed_events List.length].
      rewrite <- !app_assoc. do 2 f_equal. lia.
    + intros j Hj. cbn [n_get].
      replace (S (n_get w) + j)%nat with (n_get w + S j)%nat by lia.
      apply Hfail. cbn. lia.
Qed.

Lemma fetch_loop_extends (max_retries : Z) (attempts : list Z) :
  forall w, exists evs,
    trace (snd (fetch_loop env max_retries attempts w)) = trace w ++ evs.
Proof.
  induction attempts as [| a rest IH]; intros w.
  - cbn. now eexists.
  - cbn [fetch_loop]. unfold bind at 1. rewrite fetch_attempt_run.
    destruct (parsed (http env (n_get w))) as [data |].
    + cbn. now eexists.
    + destruct (IH (mkWorld (S (n_get w)) (n_now w)
                      (trace w ++ attempt_events max_retries a (http env (n_get w)))))
        as [evs Hevs].
      rewrite Hevs. cbn [trace]. rewrite <- app_assoc. now eexists.
Qed.

Lemma io_of_app (t1 t2 : list event) : io_of (t1 ++ t2) = io_of t1 ++ io_of t2.
Proof.
  induction t1 as [| e t1 IH]; [reflexivity |].
  destruct e; cbn; now rewrite IH.
Qed.

Lemma parsed_none_cases (o : exn + response) :
  parsed o = None <->
  (exists e, o = inl e) \/
  (exists r, o = inr r /\ (status_code r <> 200 \/ exists e, json r = inl e)).
Proof.
  unfold parsed. destruct o as [e | r].
  - split; [intros _; left; now exists e | reflexivity].
  - destruct (Z.eqb_spec (status_code r) 200) as [E | E].
    + destruct (json r) as [e | data] eqn:J.
      * split; [intros _ | reflexivity]. right. exists r. split; [reflexivity |].
        right. now exists e.
      * split; [discriminate |].
        intros [[e He] | [r' [Hr [Hs | [e He]]]]]; try discriminate;
          injection Hr as <-; [contradiction | congruence].
    + split; [intros _ | reflexivity]. right. exists r. auto.
Qed.

Lemma fails_with_delay_spec (o : exn + response) (d : Z) :
  fails_with_delay o d -> parsed o = None /\ retry_delay o = d.
Proof.
  intros H. destruct H as [r H429 | r H200 H429 | e | r e H200 HJ]; unfold parsed, retry_delay.
  - rewrite H429. now cbn.
  - destruct (Z.eqb_spec (status_code r) 200); [contradiction |].
    destruct (Z.eqb_spec (status_code r) 429); [contradiction | auto].
  - auto.
  - rewrite H200, HJ. now cbn.
Qed.

Lemma io_of_attempt_failed (max_retries attempt : Z) (o : exn + response) :
  parsed o = None ->
  io_of (attempt_events max_retries attempt o) = [Request; Wait (retry_delay o)].
Proof.
  unfold parsed, attempt_events, retry_delay. destruct o as [e | r]; cbn; [reflexivity |].
  destruct (Z.eqb_spec (status_code r) 200) as [E | E].
  - rewrite E. cbn. destruct (json r); [reflexivity | discriminate].
  - intros _. destruct (status_code r =? 429); reflexivity.
Qed.

Lemma io_of_attempt_parsed (max_retries attempt : Z) (o : exn + response) (data : Snapshot) :
  parsed o = Some data ->
  attempt_events max_retries attempt o =
    [EvPrint (MsgAttempt (attempt + 1) max_retries); EvGet API_URL PARAMS;
     EvPrint (MsgStatus 200); EvPrint (MsgFetched (len data))].
Proof.
  unfold parsed, attempt_events. destruct o as [e | r]; [discriminate |].
  destruct (Z.eqb_spec (status_code r) 200) as [E | E]; [| discriminate].
  destruct (json r); [discriminate |]. intros [= ->]. now rewrite E.
Qed.

Lemma io_of_attempt_head (max_retries attempt : Z) (o : exn + response) :
  exists later, io_of (attempt_events max_retries attempt o) = Request :: later.
Proof. unfold attempt_events. cbn. now eexists. Qed.

Lemma attempt_failed_last (max_retries attempt : Z) (o : exn + response) :
  parsed o = None ->
  exists before,
    attempt_events max_retries attempt o = before ++ [EvSleep (retry_delay o)].
Proof.
  unfold parsed, attempt_events, retry_delay. destruct o as [e | r].
  - intros _. now exists [EvPrint (MsgAttempt (attempt + 1) max_retries);
                          EvGet API_URL PARAMS; EvPrint (MsgFetchException e)].
  - destruct (Z.eqb_spec (status_code r) 200) as [E | E].
    + rewrite E. cbn [Z.eqb Pos.eqb]. destruct (json r) as [e | data]; [| discriminate].
      intros _. now exists [EvPrint (MsgAttempt (attempt + 1) max_retries);
                            EvGet API_URL PARAMS; EvPrint (MsgStatus 200);
                            EvPrint (MsgFetchException e)].
    + intros _. destruct (status_code r =? 429).
      * now exists [EvPrint (MsgAttempt (attempt + 1) max_retries);
                    EvGet API_URL PARAMS; EvPrint (MsgStatus (status_code r));
                    EvPrint MsgRateLimit].
      * now exists [EvPrint (MsgAttempt (attempt + 1) max_retries);
                    EvGet API_URL PARAMS; EvPrint (MsgStatus (status_code r));
                    EvPrint (MsgErrorFetching (status_code r));
                    EvPrint (MsgResponseContent (slice_to 200 (text r)))].
Qed.

Lemma io_of_failed_events (max_retries : Z) (attempts : list Z) :
  forall first,
    (forall j, (j < List.length attempts)%nat -> parsed (http env (first + j)) = None) ->
    io_of (failed_events env max_retries first attempts) =
    failed_io env first (List.length attempts).
Proof.
  unfold failed_io.
  induction attempts as [| a rest IH]; intros first Hfail; [reflexivity |].
  cbn [failed_events List.length seq flat_map]. rewrite io_of_app, IH.
  - rewrite io_of_attempt_failed; [reflexivity |].
    specialize (Hfail 0%nat ltac:(cbn; lia)). now rewrite Nat.add_0_r in Hfail.
  - intros j Hj. replace (S first + j)%nat with (first + S j)%nat by lia.
    apply Hfail. cbn. lia.
Qed.

Lemma failed_events_app (max_retries : Z) (pre post : list Z) :
  forall first,
    failed_events env max_retries first (pre ++ post) =
    failed_events env max_retries first pre ++
    failed_events env max_retries (first + List.length pre) post.
Proof.
  induction pre as [| a rest IH]; intros first.
  - cbn. now rewrite Nat.add_0_r.
  - cbn [app failed_events List.length]. rewrite IH, <- app_assoc.
    do 3 f_equal. lia.
Qed.

Lemma requests_in_app (t1 t2 : list event) :
  requests_in (t1 ++ t2) = (requests_in t1 + requests_in t2)%nat.
Proof. unfold requests_in. now rewrite io_of_app, filter_app, length_app. Qed.

Lemma requests_in_failed_io (first k : nat) :
  List.length (filter (fun x => match x with Request => true | Wait _ => false end)
                 (failed_io env first k)) = k.
Proof.
  unfold failed_io. revert first.
  induction k as [| k IH]; intros first; [reflexivity |].
  cbn. now rewrite IH.
Qed.

End FetchFacts.

Lemma length_range (n : Z) : List.length (range n) = Z.to_nat n.
Proof. unfold range. now rewrite length_map, length_seq. Qed.

(** [range n] cut at an index [k] below [n]. *)
Lemma range_split (n : Z) (k : nat) :
  (k < Z.to_nat n)%nat ->
  range n = map Z.of_nat (seq 0 k) ++ Z.of_nat k :: map Z.of_nat (seq (S k) (Z.to_nat n - S k)).
Proof.
  intros Hk. unfold range.
  replace (Z.to_nat n) with (k + S (Z.to_nat n - S k))%nat at 1 by lia.
  now rewrite seq_app, map_app.
Qed.

Section FetchClaims.

Variable env : environment.


(** C3.  When none of the attempts hands a parsed 200 body back (each got
    another status, an exception, or an unparsable body), the call returns
    [None] after exactly [max_retries] requests, none for a non-positive
    [max_retries]. *)
Theorem fetch_exhausted (max_retries : Z) (w : world) :
  (forall j, (j < Z.to_nat max_retries)%nat -> parsed (http env (n_get w + j)) = None) ->
  fst (fetch_crypto_data env max_retries w) = Ret None /\
  n_get (snd (fetch_crypto_data env max_retries w)) = (n_get w + Z.to_nat max_retries)%nat /\
  Z.of_nat (requests_in (trace (snd (fetch_crypto_data env max_retries w)))
            - requests_in (trace w)) = Z.max 0 max_retries /\
  io_of (trace (snd (fetch_crypto_data env max_retries w))) =
    io_of (trace w) ++ failed_io env (n_get w) (Z.to_nat max_retries).
Proof.
  intros Hfail. unfold fetch_crypto_data.
  rewrite fetch_loop_all_fail by (rewrite length_range; exact Hfail).
  rewrite length_range. cbn [fst snd n_get trace].
  assert (Hio : io_of (trace w ++ failed_events env max_retries (n_get w) (range max_retries)
                         ++ [EvPrint MsgAllFailed]) =
                io_of (trace w) ++ failed_io env (n_get w) (Z.to_nat max_retries)).
  { rewrite !io_of_app, io_of_failed_events by (rewrite length_range; exact Hfail).
    rewrite length_range. cbn. now rewrite app_nil_r. }
  repeat split; [| exact Hio].
  unfold requests_in at 1. rewrite Hio, filter_app, length_app, requests_in_failed_io.
  fold (requests_in (trace w)). lia.
Qed.

(** C4.  After a failed attempt that is not the last one, the code waits
    before the next request: 60 seconds when the status was 429, 5 seconds
    for any other failure.  The request of attempt [k], the wait and the
    request of attempt [k + 1] follow one another. *)
Theorem fetch_waits_between_attempts (max_retries : Z) (w : world) (k : nat) (d : Z) :
  (S k < Z.to_nat max_retries)%nat ->
  (forall j, (j < k)%nat -> parsed (http env (n_get w + j)) = None) ->
  fails_with_delay (http env (n_get w + k)) d ->
  exists later,
    io_of (trace (snd (fetch_crypto_data env max_retries w))) =
    io_of (trace w) ++ failed_io env (n_get w) k ++ [Request; Wait d; Request] ++ later.
Proof.
  intros Hk Hfail Hd.
  destruct (fails_with_delay_spec _ _ Hd) as [Hnone Hdelay].
  assert (Hlen : List.length (map Z.of_nat (seq 0 k)) = k)
    by now rewrite length_map, length_seq.
  unfold fetch_crypto_data. rewrite (range_split max_retries k ltac:(lia)).
  rewrite fetch_loop_skip by (rewrite Hlen; exact Hfail).
  rewrite Hlen.
  replace (Z.to_nat max_retries - S k)%nat with (S (Z.to_nat max_retries - S (S k))) by lia.
  cbn [seq map fetch_loop]. unfold bind at 1. rewrite fetch_attempt_run.
  cbn [n_get n_now trace]. rewrite Hnone.
  unfold bind at 1. rewrite fetch_attempt_run. cbn [n_get n_now trace].
  set (w2 := mkWorld _ _ _).
  assert (Hw2 : exists later, io_of (trace w2) =
            io_of (trace w) ++ failed_io env (n_get w) k ++ [Request; Wait d; Request] ++ later).
  { subst w2. cbn [trace].
    destruct (io_of_attempt_head max_retries (Z.of_nat (S k)) (http env (S (n_get w + k))))
      as [later Hlater].
    exists later.
    rewrite !io_of_app, io_of_failed_events by (rewrite Hlen; exact Hfail).
    rewrite Hlen, io_of_attempt_failed, Hlater, Hdelay by exact Hnone.
    now rewrite <- !app_assoc. }
  destruct Hw2 as [later Hlater].
  destruct (parsed (http env (S (n_get w + k)))).
  - cbn [ret snd]. now exists later.
  - destruct (fetch_loop_extends env max_retries
                (map Z.of_nat (seq (S (S k)) (Z.to_nat max_retries - S (S k)))) w2)
      as [evs Hevs].
    rewrite Hevs, io_of_app, Hlater. exists (later ++ io_of evs).
    now rewrite <- !app_assoc.
Qed.

(** C9.  The last attempt is treated like the others: when it fails too,
    the code still sleeps (60 seconds after a 429, 5 seconds otherwise)
    and only then reports failure and returns [None]. *)
Theorem fetch_waits_after_last_attempt (max_retries : Z) (w : world) (d : Z) :
  0 < max_retries ->
  (forall j, (j < Z.to_nat max_retries)%nat -> parsed (http env (n_get w + j)) = None) ->
  fails_with_delay (http env (n_get w + (Z.to_nat max_retries - 1))) d ->
  fst (fetch_crypto_data env max_retries w) = Ret None /\
  (exists before,
     trace (snd (fetch_crypto_data env max_retries w)) =
     before ++ [EvSleep d; EvPrint MsgAllFailed]) /\
  (exists before,
     io_of (trace (snd (fetch_crypto_data env max_retries w))) =
     before ++ [Request; Wait d]).
Proof.
  intros Hpos Hfail Hd.
  destruct (fails_with_delay_spec _ _ Hd) as [Hnone Hdelay].
  set (k := (Z.to_nat max_retries - 1)%nat) in *.
  assert (Hk : (k < Z.to_nat max_retries)%nat) by (subst k; lia).
  assert (Hlen : List.length (map Z.of_nat (seq 0 k)) = k)
    by now rewrite length_map, length_seq.
  unfold fetch_crypto_data.
  rewrite fetch_loop_all_fail by (rewrite length_range; exact Hfail).
  cbn [fst snd trace]. split; [reflexivity |].
  rewrite (range_split max_retries k Hk).
  replace (Z.to_nat max_retries - S k)%nat with 0%nat by lia.
  cbn [seq map].
  rewrite (failed_events_app env max_retries (map Z.of_nat (seq 0 k)) [Z.of_nat k]).
  rewrite Hlen. cbn [failed_events]. rewrite app_nil_r.
  split.
  - destruct (attempt_failed_last max_retries (Z.of_nat k) _ Hnone) as [before Hbefore].
    rewrite Hbefore, Hdelay.
    exists (trace w ++ failed_events env max_retries (n_get w) (map Z.of_nat (seq 0 k)) ++ before).
    now rewrite <- !app_assoc.
  - rewrite !io_of_app, io_of_attempt_failed, Hdelay by exact Hnone.
    exists (io_of (trace w) ++
            io_of (failed_events env max_retries (n_get w) (map Z.of_nat (seq 0 k)))).
    cbn [io_of]. now rewrite app_nil_r, <- !app_assoc.
Qed.

(** C10.  With [max_retries] zero or negative the loop body never runs:
    the call reports failure and returns [None] without a request and
    without a sleep. *)
Theorem fetch_without_attempts (max_retries : Z) (w : world) :
  max_retries <= 0 ->
  fetch_crypto_data env max_retries w =
    (Ret None, mkWorld (n_get w) (n_now w) (trace w ++ [EvPrint MsgAllFailed])) /\
  io_of (trace (snd (fetch_crypto_data env max_retries w))) = io_of (trace w).
Proof.
  intros Hn. unfold fetch_crypto_data, range.
  replace (Z.to_nat max_retries) with 0%nat by lia.
  cbn. split; [reflexivity |]. rewrite io_of_app. cbn. now rewrite app_nil_r.
Qed.

End FetchClaims.

(* ===================================================================== *)
(** ** Facts about the column check *)
(* ===================================================================== *)

Lemma mem_In (c : string) (l : list string) : mem c l = true <-> In c l.
Proof.
  unfold mem. rewrite existsb_exists. split.
  - intros [x [Hin Heq]]. apply String.eqb_eq in Heq. now subst.
  - intros Hin. exists c. split; [exact Hin | apply String.eqb_refl].
Qed.

Lemma list_remove_middle (c : string) (done rest : list string) :
  ~ In c done -> list_remove c (done ++ c :: rest) = Some (done ++ rest).
Proof.
  induction done as [| x done IH]; intros Hnot; cbn.
  - now rewrite String.eqb_refl.
  - destruct (String.eqb_spec c x) as [-> | _].
    + exfalso. apply Hnot. now left.
    + rewrite IH; [reflexivity |]. intros Hin. apply Hnot. now right.
Qed.

Lemma nth_error_middle {A : Type} (done : list A) (c : A) (rest : list A) :
  nth_error (done ++ c :: rest) (List.length done) = Some c.
Proof. induction done as [| x done IH]; [reflexivity | exact IH]. Qed.

Lemma nth_error_past {A : Type} (l : list A) (i : nat) :
  (List.length l <= i)%nat -> nth_error l i = None.
Proof. intros H. now apply nth_error_None. Qed.

(** The loop on a duplicate-free list whose first [length done] entries
    have been passed: it returns [done] followed by what [kept_columns]
    makes of the rest, and prints one warning per dropped column.  Any
    [fuel] that covers the rest of the list gives this result. *)
Lemma check_columns_run (df_cols : list string) :
  forall (fuel : nat) (done rest : list string) (w : world),
    NoDup (done ++ rest) ->
    (List.length rest <= fuel)%nat ->
    check_columns fuel df_cols (List.length done) (done ++ rest) w =
    (Ret (done ++ kept_columns df_cols rest),
     mkWorld (n_get w) (n_now w) (trace w ++ warnings (warned_columns df_cols rest))).
Proof.
  induction fuel as [| fuel IH]; intros done rest w Hnodup Hfuel.
  - destruct rest; [| cbn in Hfuel; lia].
    cbn. unfold ret. rewrite !app_nil_r. now destruct w.
  - destruct rest as [| c rest].
    + cbn [check_columns]. rewrite nth_error_past by (rewrite app_nil_r; lia).
      cbn. unfold ret. rewrite !app_nil_r. now destruct w.
    + cbn [check_columns kept_columns warned_columns].
      rewrite nth_error_middle.
      destruct (mem c df_cols) eqn:Hmem; cbn [negb].
      * replace (done ++ c :: rest) with ((done ++ [c]) ++ rest) in *
          by now rewrite <- app_assoc.
        replace (S (List.length done)) with (List.length (done ++ [c]))
          by (rewrite length_app; cbn; lia).
        rewrite IH; [| exact Hnodup | cbn in Hfuel; lia].
        now rewrite <- app_assoc.
      * unfold bind, print, emit. cbn [fst snd].
        rewrite list_remove_middle by (apply NoDup_remove_2 in Hnodup;
                                       intros Hin; apply Hnodup, in_or_app; now left).
        apply NoDup_remove_1 in Hnodup.
        destruct rest as [| c' rest].
        -- destruct fuel; cbn [check_columns].
           ++ cbn. now rewrite !app_nil_r.
           ++ rewrite nth_error_past by (rewrite app_nil_r; lia).
              cbn. now rewrite !app_nil_r.
        -- replace (done ++ c' :: rest) with ((done ++ [c']) ++ rest) in *
             by now rewrite <- app_assoc.
           replace (S (List.length done)) with (List.length (done ++ [c']))
             by (rewrite length_app; cbn; lia).
           rewrite IH; [| exact Hnodup | cbn in Hfuel; lia].
           cbn [n_get n_now trace warnings map]. now rewrite <- !app_assoc.
Qed.

(** Every column of the list is either kept or warned about; a column that
    is warned about is not in the frame. *)
Lemma kept_columns_all_present (df_cols : list string) :
  forall (n : nat) (cols : list string),
    (List.length cols <= n)%nat ->
    forallb (fun c => mem c df_cols) (kept_columns df_cols cols) = true ->
    kept_columns df_cols cols = filter (fun c => mem c df_cols) cols /\
    warned_columns df_cols cols = filter (fun c => negb (mem c df_cols)) cols.
Proof.
  induction n as [| n IH]; intros cols Hlen Hall.
  - destruct cols; [now split | cbn in Hlen; lia].
  - destruct cols as [| c rest]; [now split |].
    cbn [kept_columns warned_columns filter] in *.
    destruct (mem c df_cols) eqn:Hc; cbn [negb].
    + cbn [forallb] in Hall. rewrite Hc in Hall. cbn [andb] in Hall.
      destruct (IH rest ltac:(cbn in Hlen; lia) Hall) as [Hk Hw].
      now rewrite Hk, Hw.
    + destruct rest as [| c' rest]; [now split |].
      cbn [forallb filter] in *.
      apply andb_prop in Hall. destruct Hall as [Hc' Hall].
      rewrite Hc'. cbn [negb].
      destruct (IH rest ltac:(cbn in Hlen; lia) Hall) as [Hk Hw].
      now rewrite Hk, Hw.
Qed.

Lemma missing_nil_iff (df_cols keep : list string) :
  filter (fun c => negb (mem c df_cols)) keep = [] <->
  forallb (fun c => mem c df_cols) keep = true.
Proof.
  induction keep as [| c keep IH]; cbn; [tauto |].
  destruct (mem c df_cols); cbn; [exact IH |]. split; discriminate.
Qed.

Lemma NoDup_columns_to_keep : NoDup columns_to_keep.
Proof.
  unfold columns_to_keep.
  repeat (constructor; [cbn; intros H; repeat (destruct H as [H | H]; [discriminate H |]); exact H |]).
  constructor.
Qed.

(* ===================================================================== *)
(** ** Facts about save_to_excel *)
(* ===================================================================== *)

Section ExportFacts.

Variable env : environment.

(** The [try] block, case by case. *)
Lemma save_to_excel_body_run (data : Snapshot) (directory : string) (w : world) :
  save_to_excel_body env data directory w =
  match makedirs_raises env directory with
  | Some e => (Raise e, w)
  | None =>
      let path := export_path env directory w in
      let cols := frame_columns data in
      let t1 := trace w ++ [EvMakedirs directory; EvPrint (MsgPreparing path)]
                        ++ warnings (warned_columns cols columns_to_keep) in
      match filter (fun c => negb (mem c cols)) (kept_columns cols columns_to_keep) with
      | m :: ms => (Raise (KeyError (m :: ms)), mkWorld (n_get w) (S (n_now w)) t1)
      | [] =>
          let df := export_frame env data w in
          match to_excel_raises env path df with
          | Some e => (Raise e, mkWorld (n_get w) (S (S (n_now w))) t1)
          | None =>
              if path_exists env path then
                match path_getsize env path with
                | inr size =>
                    (Ret (Some path),
                     mkWorld (n_get w) (S (S (n_now w)))
                             (t1 ++ [EvToExcel path df; EvPrint (MsgCreated path size)]))
                | inl e =>
                    (Raise e,
                     mkWorld (n_get w) (S (S (n_now w))) (t1 ++ [EvToExcel path df]))
                end
              else
                (Ret None,
                 mkWorld (n_get w) (S (S (n_now w)))
                         (t1 ++ [EvToExcel path df; EvPrint (MsgNotCreated path)]))
          end
      end
  end.
Proof.
  unfold save_to_excel_body, makedirs.
  destruct (makedirs_raises env directory) as [e |]; [reflexivity |].
  unfold bind at 1. unfold emit at 1.
  unfold bind at 1. unfold now at 1. cbn [n_get n_now trace].
  unfold bind at 1. unfold print at 1, emit at 1. cbn [n_get n_now trace].
  fold (export_path env directory w).
  unfold bind at 1.
  rewrite (check_columns_run (df_columns (DataFrame_of data)) (len columns_to_keep)
             [] columns_to_keep _ NoDup_columns_to_keep (le_n _)).
  cbn [app n_get n_now trace df_columns DataFrame_of].
  unfold bind at 1, getitem at 1. cbn [df_columns df_rows].
  change (mkDataFrame (kept_columns (frame_columns data) columns_to_keep) _)
    with (projection data).
  destruct (filter _ (kept_columns (frame_columns data) columns_to_keep)) as [| m ms].
  - unfold ret at 1. unfold bind at 1, now at 1. cbn [n_get n_now trace].
    fold (export_frame env data w).
    unfold bind at 1, to_excel at 1.
    destruct (to_excel_raises env (export_path env directory w) (export_frame env data w))
      as [e |].
    + unfold raise. cbn zeta. now rewrite <- !app_assoc.
    + unfold emit at 1. cbn [n_get n_now trace].
      destruct (path_exists env (export_path env directory w)).
      * unfold bind at 1, getsize.
        destruct (path_getsize env (export_path env directory w)) as [e | size].
        -- unfold raise. cbn zeta. now rewrite <- !app_assoc.
        -- unfold ret, bind, print, emit. cbn. now rewrite <- !app_assoc.
      * unfold ret, bind, print, emit. cbn. now rewrite <- !app_assoc.
  - unfold raise. cbn zeta. now rewrite <- !app_assoc.
Qed.

Lemma save_to_excel_run (data : Snapshot) (directory : string) (w : world) :
  save_to_excel env data directory w =
  match save_to_excel_body env data directory w with
  | (Ret v, w') => (Ret v, w')
  | (Raise e, w') =>
      (Ret None, mkWorld (n_get w') (n_now w') (trace w' ++ [EvPrint (MsgErrorSaving e)]))
  end.
Proof.
  unfold save_to_excel, try_except.
  destruct (save_to_excel_body env data directory w) as [[v | e] w']; reflexivity.
Qed.

End ExportFacts.

Lemma skipn_app_length {A : Type} (l l' : list A) : skipn (List.length l) (l ++ l') = l'.
Proof. induction l as [| x l IH]; [reflexivity | exact IH]. Qed.

Lemma written_app (t1 t2 : list event) : written (t1 ++ t2) = written t1 ++ written t2.
Proof.
  induction t1 as [| e t1 IH]; [reflexivity |].
  destruct e; cbn; now rewrite IH.
Qed.

Lemma written_warnings (cols : list string) : written (warnings cols) = [].
Proof. induction cols as [| c cols IH]; [reflexivity | exact IH]. Qed.

Lemma kept_columns_incl (df_cols : list string) :
  forall (n : nat) (cols : list string) (c : string),
    (List.length cols <= n)%nat -> In c (kept_columns df_cols cols) -> In c cols.
Proof.
  induction n as [| n IH]; intros cols c Hlen Hin.
  - destruct cols; [exact Hin | cbn in Hlen; lia].
  - destruct cols as [| x rest]; [exact Hin |].
    cbn [kept_columns] in Hin. destruct (mem x df_cols).
    + destruct Hin as [-> | Hin]; [now left | right].
      apply (IH rest c); [cbn in Hlen; lia | exact Hin].
    + destruct rest as [| x' rest]; [destruct Hin |].
      destruct Hin as [-> | Hin]; [right; now left | do 2 right].
      apply (IH rest c); [cbn in Hlen; lia | exact Hin].
Qed.

Lemma timestamp_not_kept (df_cols : list string) :
  ~ In "timestamp" (kept_columns df_cols columns_to_keep).
Proof.
  intros Hin. apply (kept_columns_incl df_cols _ _ _ (le_n _)) in Hin.
  cbn in Hin. repeat (destruct Hin as [Hin | Hin]; [discriminate Hin |]). exact Hin.
Qed.

Lemma index_of_last (c : string) (cols : list string) :
  ~ In c cols -> index_of c (cols ++ [c]) = List.length cols.
Proof.
  induction cols as [| x cols IH]; intros Hnot; cbn.
  - now rewrite String.eqb_refl.
  - destruct (String.eqb_spec c x) as [-> | _].
    + exfalso. apply Hnot. now left.
    + rewrite IH; [reflexivity |]. intros Hin. apply Hnot. now right.
Qed.

Lemma remove_nth_last {A : Type} (l : list A) (x : A) :
  remove_nth (List.length l) (l ++ [x]) = l.
Proof. induction l as [| y l IH]; [reflexivity | cbn; now rewrite IH]. Qed.

Lemma nth_last {A : Type} (l : list A) (x d : A) : nth (List.length l) (l ++ [x]) d = x.
Proof. induction l as [| y l IH]; [reflexivity | exact IH]. Qed.

(** Every row of the projected frame has one cell per kept column. *)
Lemma projection_row_length (data : Snapshot) (row : list cell) :
  In row (df_rows (projection data)) ->
  List.length row = List.length (df_columns (projection data)).
Proof.
  unfold projection. cbn [df_rows df_columns]. rewrite in_map_iff.
  intros [r [<- _]]. now rewrite length_map.
Qed.

Lemma setitem_new_column (df : DataFrame) (c : string) (v : cell) :
  ~ In c (df_columns df) ->
  setitem df c v = mkDataFrame (df_columns df ++ [c]) (map (fun row => row ++ [v]) (df_rows df)).
Proof.
  intros Hnot. unfold setitem.
  destruct (mem c (df_columns df)) eqn:Hmem; [| reflexivity].
  apply mem_In in Hmem. contradiction.
Qed.

(** Taking the added column away again gives the frame back. *)
Lemma without_setitem_new (df : DataFrame) (c : string) (v : cell) :
  ~ In c (df_columns df) ->
  (forall row, In row (df_rows df) -> List.length row = List.length (df_columns df)) ->
  without_column c (setitem df c v) = df.
Proof.
  intros Hnot Hrows. rewrite setitem_new_column by exact Hnot.
  unfold without_column. cbn [df_columns df_rows].
  assert (Hmem : mem c (df_columns df ++ [c]) = true).
  { apply mem_In, in_or_app. right. now left. }
  rewrite Hmem, index_of_last, remove_nth_last by exact Hnot.
  rewrite map_map. destruct df as [cols rows]. cbn [df_columns df_rows] in *. f_equal.
  rewrite <- (map_id rows) at 2. apply map_ext_in. intros row Hin.
  rewrite <- (Hrows row Hin). apply remove_nth_last.
Qed.

Lemma is_digit_digit (n : Z) : is_digit (digit n) = true.
Proof.
  unfold digit. pose proof (Z.mod_pos_bound n 10 ltac:(lia)) as Hb.
  assert (H : exists k, (k < 10)%nat /\ Z.to_nat (n mod 10) = k)
    by (exists (Z.to_nat (n mod 10)); split; [lia | reflexivity]).
  destruct H as [k [Hk ->]].
  do 10 (destruct k as [| k]; [reflexivity |]). lia.
Qed.

Lemma timestamp_shape_strftime (t : datetime) :
  timestamp_shape (strftime_datetime t) = true.
Proof.
  unfold timestamp_shape, strftime_datetime, strftime_date, pad4, pad2.
  cbn [String.append list_ascii_of_string forallb].
  rewrite !is_digit_digit. reflexivity.
Qed.

Lemma digit_value_digit (n : Z) : digit_value (digit n) = n mod 10.
Proof.
  unfold digit_value, digit. pose proof (Z.mod_pos_bound n 10 ltac:(lia)) as Hb.
  rewrite nat_ascii_embedding by lia. lia.
Qed.

(** Reading back what [strftime] printed gives the clock reading, for the
    readings whose fields are in range. *)
Lemma read_timestamp_strftime (t : datetime) :
  valid_datetime t -> read_timestamp (strftime_datetime t) = Some t.
Proof.
  intros [Hy [Hm [Hd [Hh [Hn Hs]]]]].
  unfold read_timestamp. rewrite timestamp_shape_strftime.
  unfold strftime_datetime, strftime_date, pad4, pad2.
  cbn [String.append list_ascii_of_string].
  rewrite !digit_value_digit. destruct t as [y mo d h mi sec].
  cbn [year month day hour minute second] in *.
  f_equal. f_equal; Z.div_mod_to_equations; lia.
Qed.

Section ExportRuns.

Variable env : environment.

Ltac export_cases :=
  unfold export_events; rewrite save_to_excel_run, save_to_excel_body_run;
  cbn zeta;
  destruct (makedirs_raises env _) as [? |];
  [| destruct (filter _ (kept_columns _ columns_to_keep)) as [| ? ?] eqn:?;
     [ destruct (to_excel_raises env _ _) as [? |];
       [| destruct (path_exists env _);
          [ destruct (path_getsize env _) as [? | ?] |] ] |] ];
  cbn [fst snd n_get n_now trace];
  rewrite <- ?app_assoc, ?skipn_app_length.

(** A call that returns a path went through every step: the directory was
    made, every kept column was in the frame, and the frame with its
    timestamp was written to that path. *)
Lemma export_success (data : Snapshot) (directory : string) (w : world) (path : string) :
  fst (save_to_excel env data directory w) = Ret (Some path) ->
  path = export_path env directory w /\
  filter (fun c => negb (mem c (frame_columns data)))
         (kept_columns (frame_columns data) columns_to_keep) = [] /\
  exists size,
    export_events env data directory w =
    [EvMakedirs directory; EvPrint (MsgPreparing path)]
    ++ warnings (warned_columns (frame_columns data) columns_to_keep)
    ++ [EvToExcel path (export_frame env data w); EvPrint (MsgCreated path size)].
Proof.
  export_cases; intros H; try discriminate H.
  injection H as <-. repeat split. now eexists.
Qed.

(** Whatever a call writes is the frame it built, and it only gets that
    far when the column selection did not raise. *)
Lemma export_written (data : Snapshot) (directory : string) (w : world)
    (path : string) (df : DataFrame) :
  In (path, df) (written (export_events env data directory w)) ->
  path = export_path env directory w /\
  df = export_frame env data w /\
  filter (fun c => negb (mem c (frame_columns data)))
         (kept_columns (frame_columns data) columns_to_keep) = [].
Proof.
  export_cases; cbn [app written]; rewrite ?written_app, ?written_warnings;
    cbn [app written In]; intros H; try contradiction;
    destruct H as [H | []]; injection H as <- <-; now repeat split.
Qed.

(** The call always returns. *)
Lemma save_to_excel_returns (data : Snapshot) (directory : string) (w : world) :
  exists v w', save_to_excel env data directory w = (Ret v, w').
Proof.
  rewrite save_to_excel_run.
  destruct (save_to_excel_body env data directory w) as [[v | e] w']; now do 2 eexists.
Qed.

(** Every call leaves a mark in the trace: the directory it made, or the
    report of the error that stopped it before. *)
Lemma export_leaves_footprint (data : Snapshot) (directory : string) (w : world) :
  export_footprint (export_events env data directory w) <> [].
Proof.
  export_cases; cbn; discriminate.
Qed.

End ExportRuns.

Section ExportClaims.

Variable env : environment.

(** C1.  The snapshot whose records lack both "id" and "symbol", two
    neighbours of the allow-list: the loop warns about "id" and drops it,
    never looks at "symbol", and the selection of the columns then raises
    [KeyError] for "symbol".  No table is written and the call returns
    [None]; "symbol" gets no warning. *)
Theorem save_to_excel_adjacent_missing (directory : string) (w : world) :
  absent_columns snapshot_without_id_symbol = ["id"; "symbol"] /\
  fst (save_to_excel env snapshot_without_id_symbol directory w) = Ret None /\
  written (export_events env snapshot_without_id_symbol directory w) = [] /\
  export_events env snapshot_without_id_symbol directory w =
    match makedirs_raises env directory with
    | Some e => [EvPrint (MsgErrorSaving e)]
    | None =>
        [EvMakedirs directory;
         EvPrint (MsgPreparing (export_path env directory w));
         EvPrint (MsgMissingColumn "id");
         EvPrint (MsgErrorSaving (KeyError ["symbol"]))]
    end.
Proof.
  assert (Hmiss : filter (fun c => negb (mem c (frame_columns snapshot_without_id_symbol)))
                    (kept_columns (frame_columns snapshot_without_id_symbol) columns_to_keep)
                  = ["symbol"]) by (vm_compute; reflexivity).
  assert (Hwarn : warned_columns (frame_columns snapshot_without_id_symbol) columns_to_keep
                  = ["id"]) by (vm_compute; reflexivity).
  split; [vm_compute; reflexivity |].
  unfold export_events. rewrite save_to_excel_run, save_to_excel_body_run. cbn zeta.
  rewrite Hmiss, Hwarn.
  destruct (makedirs_raises env directory) as [e |];
    cbn [fst snd n_get n_now trace warnings map app];
    rewrite <- ?app_assoc, ?skipn_app_length; now repeat split.
Qed.

(** C5.  [save_to_excel] always returns.  Whatever the [try] block raises
    is reported and turned into the result [None]; this is so when making
    the directory raises, when the column selection raises, and when
    writing the file raises. *)
Theorem save_to_excel_never_raises (data : Snapshot) (directory : string) (w : world) :
  (exists v w', save_to_excel env data directory w = (Ret v, w')) /\
  (forall e w',
      save_to_excel_body env data directory w = (Raise e, w') ->
      save_to_excel env data directory w =
      (Ret None, mkWorld (n_get w') (n_now w') (trace w' ++ [EvPrint (MsgErrorSaving e)]))) /\
  (forall e,
      makedirs_raises env directory = Some e ->
      fst (save_to_excel env data directory w) = Ret None) /\
  (filter (fun c => negb (mem c (frame_columns data)))
          (kept_columns (frame_columns data) columns_to_keep) <> [] ->
   fst (save_to_excel env data directory w) = Ret None) /\
  (forall e,
      to_excel_raises env (export_path env directory w) (export_frame env data w) = Some e ->
      fst (save_to_excel env data directory w) = Ret None).
Proof.
  split; [apply save_to_excel_returns |].
  split; [intros e w' H; now rewrite save_to_excel_run, H |].
  rewrite save_to_excel_run, save_to_excel_body_run. cbn zeta.
  repeat split.
  - intros e H. now rewrite H.
  - intros H. destruct (makedirs_raises env directory); [reflexivity |].
    destruct (filter _ (kept_columns _ columns_to_keep)); [contradiction | reflexivity].
  - intros e H. destruct (makedirs_raises env directory); [reflexivity |].
    destruct (filter _ (kept_columns _ columns_to_keep)); [| reflexivity].
    now rewrite H.
Qed.

(** C7.  A call that returns a path has written one table.  Its columns
    are the allow-listed columns of the snapshot followed by one column
    "timestamp"; it has one row per record; the timestamp cell of every
    row, the last one, holds one and the same text.  For a clock reading
    with its fields in range that text has the form YYYY-MM-DD HH:MM:SS
    and, read back field by field, is the second clock reading of the
    call. *)
Theorem save_to_excel_timestamp (data : Snapshot) (directory : string) (w : world)
    (path : string) :
  fst (save_to_excel env data directory w) = Ret (Some path) ->
  exists stamp,
    written (export_events env data directory w) = [(path, export_frame env data w)] /\
    df_columns (export_frame env data w) = present_columns data ++ ["timestamp"] /\
    count_occ string_dec (df_columns (export_frame env data w)) "timestamp" = 1%nat /\
    List.length (df_rows (export_frame env data w)) = List.length data /\
    (forall row,
        In row (df_rows (export_frame env data w)) ->
        List.length row = List.length (df_columns (export_frame env data w)) /\
        cell_at (df_columns (export_frame env data w)) row "timestamp" = CVal (VStr stamp) /\
        last row CNaN = CVal (VStr stamp)) /\
    (valid_datetime (clock env (S (n_now w))) ->
     timestamp_shape stamp = true /\
     read_timestamp stamp = Some (clock env (S (n_now w)))).
Proof.
  intros Hok.
  set (df := export_frame env data w).
  set (stamp := strftime_datetime (clock env (S (n_now w)))).
  exists stamp.
  destruct (export_success env data directory w path Hok) as [Hpath [Hmiss [size Hev]]].
  apply missing_nil_iff in Hmiss.
  destruct (kept_columns_all_present (frame_columns data) _ columns_to_keep (le_n _) Hmiss)
    as [Hkept _].
  pose proof (timestamp_not_kept (frame_columns data)) as Hnot.
  assert (Hcols : df_columns (projection data) = present_columns data) by exact Hkept.
  assert (Hdf : df = mkDataFrame (present_columns data ++ ["timestamp"])
                       (map (fun row => row ++ [CVal (VStr stamp)])
                            (df_rows (projection data)))).
  { subst df. unfold export_frame. rewrite setitem_new_column by exact Hnot.
    now rewrite Hcols. }
  assert (Hnot' : ~ In "timestamp" (present_columns data)) by (rewrite <- Hcols; exact Hnot).
  split.
  { rewrite Hev. cbn [app written]. rewrite written_app, written_warnings. reflexivity. }
  rewrite Hdf. cbn [df_columns df_rows].
  split; [reflexivity |].
  split.
  { rewrite count_occ_app, (proj1 (count_occ_not_In string_dec _ _) Hnot').
    reflexivity. }
  split.
  { unfold projection. cbn [df_rows DataFrame_of]. now rewrite !length_map. }
  split.
  - intros row Hin. apply in_map_iff in Hin. destruct Hin as [row0 [<- Hin0]].
    apply projection_row_length in Hin0. rewrite Hcols in Hin0.
    repeat split.
    + rewrite !length_app, Hin0. reflexivity.
    + unfold cell_at. rewrite index_of_last by exact Hnot'.
      rewrite <- Hin0. apply nth_last.
    + apply last_last.
  - intros Hvalid. split.
    + apply timestamp_shape_strftime.
    + apply read_timestamp_strftime, Hvalid.
Qed.

End ExportClaims.

(** C8.  The projection depends on the snapshot alone: two calls on the
    same snapshot, on any two machines and at any two times, write tables
    that are equal once the timestamp column is left out, and equal
    altogether when both calls read the same time. *)
Theorem save_to_excel_projection_deterministic
    (env1 env2 : environment) (data : Snapshot) (directory1 directory2 : string)
    (w1 w2 : world) (path1 path2 : string) (df1 df2 : DataFrame) :
  In (path1, df1) (written (export_events env1 data directory1 w1)) ->
  In (path2, df2) (written (export_events env2 data directory2 w2)) ->
  without_column "timestamp" df1 = projection data /\
  without_column "timestamp" df2 = projection data /\
  without_column "timestamp" df1 = without_column "timestamp" df2 /\
  (clock env1 (S (n_now w1)) = clock env2 (S (n_now w2)) -> df1 = df2).
Proof.
  intros H1 H2.
  apply export_written in H1. destruct H1 as [_ [-> _]].
  apply export_written in H2. destruct H2 as [_ [-> _]].
  assert (Hback : forall env w, without_column "timestamp" (export_frame env data w)
                                = projection data).
  { intros env w. unfold export_frame. apply without_setitem_new.
    - apply timestamp_not_kept.
    - apply projection_row_length. }
  rewrite !Hback. repeat split.
  intros Hclock. unfold export_frame. now rewrite Hclock.
Qed.

(* ===================================================================== *)
(** ** Facts about main *)
(* ===================================================================== *)

Section MainFacts.

Variable env : environment.

Lemma footprint_attempt_events (max_retries attempt : Z) (o : exn + response) :
  export_footprint (attempt_events max_retries attempt o) = [].
Proof.
  unfold attempt_events. destruct o as [e | r]; cbn; [reflexivity |].
  destruct (status_code r =? 200).
  - destruct (json r); reflexivity.
  - destruct (status_code r =? 429); reflexivity.
Qed.

Lemma footprint_app (t1 t2 : list event) :
  export_footprint (t1 ++ t2) = export_footprint t1 ++ export_footprint t2.
Proof. apply filter_app. Qed.

(** The fetch always returns, and nothing it does looks like an export. *)
Lemma fetch_loop_returns (max_retries : Z) (attempts : list Z) :
  forall w, exists data w' evs,
    fetch_loop env max_retries attempts w = (Ret data, w') /\
    trace w' = trace w ++ evs /\
    export_footprint evs = [].
Proof.
  induction attempts as [| a rest IH]; intros w.
  - cbn. now do 3 eexists.
  - cbn [fetch_loop]. unfold bind at 1. rewrite fetch_attempt_run.
    destruct (parsed (http env (n_get w))) as [data |].
    + do 3 eexists. split; [reflexivity |]. cbn [trace].
      split; [reflexivity | apply footprint_attempt_events].
    + destruct (IH (mkWorld (S (n_get w)) (n_now w)
                      (trace w ++ attempt_events max_retries a (http env (n_get w)))))
        as [data [w' [evs [Hrun [Htrace Hfoot]]]]].
      exists data, w', (attempt_events max_retries a (http env (n_get w)) ++ evs).
      split; [exact Hrun |]. cbn [trace] in Htrace.
      split; [now rewrite Htrace, <- app_assoc |].
      now rewrite footprint_app, footprint_attempt_events, Hfoot.
Qed.

Lemma export_path_nonempty (directory : string) (w : world) :
  String.eqb (export_path env directory w) "" = false.
Proof.
  unfold export_path, path_join.
  destruct directory as [| c d]; [reflexivity |].
  cbn [String.eqb]. destruct (ends_with_slash (String c d)); reflexivity.
Qed.

End MainFacts.

Section MainClaims.

Variable env : environment.

(** C6.  [main] always returns.  When the fetch hands back [None] or an
    empty list, [main] reports it and stops, and nothing of an export
    shows in what it did.  Otherwise it calls [save_to_excel] on the
    fetched snapshot with the directory "data", and returns after
    reporting the path or the failure. *)
Theorem main_exports_only_fetched_data (w : world) :
  fst (main env w) = Ret tt /\
  forall (data : option Snapshot) (w2 : world),
    fetch_crypto_data env default_max_retries
      (mkWorld (n_get w) (n_now w) (trace w ++ [EvPrint MsgStarting])) = (Ret data, w2) ->
    (data = None \/ data = Some [] ->
     main env w = (Ret tt, mkWorld (n_get w2) (n_now w2) (trace w2 ++ [EvPrint MsgNoData])) /\
     export_footprint (main_events env w) = []) /\
    (forall snapshot,
        data = Some snapshot -> snapshot <> [] ->
        exists r w3,
          save_to_excel env snapshot "data" w2 = (Ret r, w3) /\
          main env w =
          (Ret tt, mkWorld (n_get w3) (n_now w3)
                     (trace w3 ++ [EvPrint match r with
                                           | Some p => MsgCompleted p
                                           | None => MsgSaveFailed
                                           end]))).
Proof.
  set (w1 := mkWorld (n_get w) (n_now w) (trace w ++ [EvPrint MsgStarting])).
  assert (Hmain : main env w =
            match fetch_crypto_data env default_max_retries w1 with
            | (Ret data, w2) =>
                if negb (truthy_data data) || Nat.eqb (len_data data) 0 then
                  (Ret tt, mkWorld (n_get w2) (n_now w2) (trace w2 ++ [EvPrint MsgNoData]))
                else
                  match data with
                  | Some snapshot =>
                      match save_to_excel env snapshot default_directory w2 with
                      | (Ret r, w3) =>
                          (if truthy_path r then
                             match r with
                             | Some p => print (MsgCompleted p)
                             | None => ret tt
                             end
                           else print MsgSaveFailed) w3
                      | (Raise e, w3) => (Raise e, w3)
                      end
                  | None => (Ret tt, w2)
                  end
            | (Raise e, w2) => (Raise e, w2)
            end).
  { unfold main. unfold bind at 1. unfold print at 1, emit at 1. fold w1.
    unfold bind at 1.
    destruct (fetch_crypto_data env default_max_retries w1) as [[data | e] w2];
      [| reflexivity].
    destruct (negb (truthy_data data) || Nat.eqb (len_data data) 0); [reflexivity |].
    destruct data as [snapshot |]; [| reflexivity].
    unfold bind at 1.
    destruct (save_to_excel env snapshot default_directory w2) as [[r | e] w3]; reflexivity. }
  destruct (fetch_loop_returns env default_max_retries (range default_max_retries) w1)
    as [data0 [w20 [evs [Hfetch [Htrace Hfoot]]]]].
  fold (fetch_crypto_data env default_max_retries) in Hfetch.
  assert (Hsave : forall snapshot w2 r w3,
             save_to_excel env snapshot default_directory w2 = (Ret r, w3) ->
             (if truthy_path r then
                match r with
                | Some p => print (MsgCompleted p)
                | None => ret tt
                end
              else print MsgSaveFailed) w3 =
             (Ret tt, mkWorld (n_get w3) (n_now w3)
                        (trace w3 ++ [EvPrint match r with
                                              | Some p => MsgCompleted p
                                              | None => MsgSaveFailed
                                              end]))).
  { intros snapshot w2 r w3 Hrun. destruct r as [p |]; [| reflexivity].
    assert (Hp : fst (save_to_excel env snapshot default_directory w2) = Ret (Some p))
      by now rewrite Hrun.
    apply export_success in Hp. destruct Hp as [-> _].
    unfold truthy_path. now rewrite export_path_nonempty. }
  split.
  - rewrite Hmain, Hfetch.
    destruct (negb (truthy_data data0) || Nat.eqb (len_data data0) 0); [reflexivity |].
    destruct data0 as [snapshot |]; [| reflexivity].
    destruct (save_to_excel_returns env snapshot default_directory w20) as [r [w3 Hrun]].
    now rewrite Hrun, (Hsave _ _ _ _ Hrun).
  - intros data w2 Hrun. rewrite Hrun in Hfetch. injection Hfetch as <- <-.
    split.
    + intros Hnone.
      assert (Hgo : main env w =
                (Ret tt, mkWorld (n_get w2) (n_now w2) (trace w2 ++ [EvPrint MsgNoData]))).
      { rewrite Hmain, Hrun. now destruct Hnone as [-> | ->]. }
      split; [exact Hgo |].
      unfold main_events. rewrite Hgo. cbn [snd trace]. rewrite Htrace. subst w1.
      cbn [trace]. rewrite <- !app_assoc, skipn_app_length.
      rewrite !footprint_app, Hfoot. reflexivity.
    + intros snapshot -> Hne.
      destruct (save_to_excel_returns env snapshot default_directory w2) as [r [w3 Hsaved]].
      exists r, w3. split; [exact Hsaved |].
      rewrite Hmain, Hrun.
      destruct snapshot as [| record rest]; [contradiction |].
      cbn [truthy_data negb len_data len List.length Nat.eqb orb].
      now rewrite Hsaved, (Hsave _ _ _ _ Hsaved).
Qed.

End MainClaims.

(* ===================================================================== *)
(** ** The column check when a table is written *)
(* ===================================================================== *)

Lemma warnings_in_app (t1 t2 : list event) :
  warnings_in (t1 ++ t2) = warnings_in t1 ++ warnings_in t2.
Proof.
  induction t1 as [| e t1 IH]; [reflexivity |].
  destruct e as [m | | | |]; try exact IH.
  destruct m; try exact IH. cbn. now rewrite IH.
Qed.

Lemma warnings_in_warnings (cols : list string) : warnings_in (warnings cols) = cols.
Proof.
  unfold warnings. induction cols as [| c cols IH]; [reflexivity | cbn; now rewrite IH].
Qed.

(** Whenever a call returns a path, the schema is the allow-list cut down
    to the columns of the snapshot, and each allow-listed column the
    snapshot lacks was warned about once. *)
Lemma export_schema_on_success (env : environment) (data : Snapshot)
    (directory : string) (w : world) (path : string) :
  fst (save_to_excel env data directory w) = Ret (Some path) ->
  df_columns (export_frame env data w) = present_columns data ++ ["timestamp"] /\
  warnings_in (export_events env data directory w) = absent_columns data.
Proof.
  intros Hok.
  destruct (export_success env data directory w path Hok) as [_ [Hmiss [size Hev]]].
  apply missing_nil_iff in Hmiss.
  destruct (kept_columns_all_present (frame_columns data) _ columns_to_keep (le_n _) Hmiss)
    as [Hkept Hwarned].
  split.
  - unfold export_frame.
    rewrite setitem_new_column by apply timestamp_not_kept.
    cbn [df_columns projection DataFrame_of]. now rewrite Hkept.
  - rewrite Hev, !warnings_in_app, warnings_in_warnings, Hwarned.
    cbn. now rewrite app_nil_r.
Qed.

(** The spec's scenario: no record has "market_cap".  The header leaves
    it out, keeps the six other allow-listed columns, and one warning is
    printed. *)
Lemma export_without_market_cap :
  fst (save_to_excel (sample_env answers_500)
         (map (without_keys ["market_cap"]) sample_snapshot) "data" initial_world)
    = Ret (Some "data/crypto_data_2024-03-05.xlsx") /\
  df_columns (export_frame (sample_env answers_500)
                (map (without_keys ["market_cap"]) sample_snapshot) initial_world)
    = ["id"; "symbol"; "name"; "current_price"; "total_volume";
       "price_change_percentage_24h"; "timestamp"] /\
  warnings_in (export_events (sample_env answers_500)
                 (map (without_keys ["market_cap"]) sample_snapshot) "data" initial_world)
    = ["market_cap"].
Proof. repeat split; vm_compute; reflexivity. Qed.

(** A 200 whose body [.json()] rejects is not returned: the exception is
    caught by the [except] of the attempt, which sleeps 5 seconds and lets
    the loop go on. *)
Lemma fetch_attempt_unparsable_200 (env : environment) (max_retries attempt : Z)
    (w : world) (r : response) (e : exn) :
  http env (n_get w) = inr r ->
  status_code r = 200 ->
  json r = inl e ->
  fetch_attempt env max_retries attempt w =
  (Ret None,
   mkWorld (S (n_get w)) (n_now w)
           (trace w ++ [EvPrint (MsgAttempt (attempt + 1) max_retries);
                        EvGet API_URL PARAMS;
                        EvPrint (MsgStatus 200);
                        EvPrint (MsgFetchException e);
                        EvSleep 5])).
Proof.
  intros Hr Hs Hj. rewrite fetch_attempt_run, Hr.
  unfold parsed, attempt_events. now rewrite Hs, Hj.
Qed.


(* ===================================================================== *)
(** ** The theorems at sample inputs *)
(* ===================================================================== *)


(** 500 on every attempt: [None] after three requests. *)
Lemma fetch_exhausted_witness :
  fst (fetch_crypto_data (sample_env answers_500) 3 initial_world) = Ret None /\
  n_get (snd (fetch_crypto_data (sample_env answers_500) 3 initial_world)) = 3%nat /\
  Z.of_nat (requests_in (trace (snd (fetch_crypto_data (sample_env answers_500) 3
                                       initial_world)))
            - requests_in (trace initial_world)) = 3 /\
  io_of (trace (snd (fetch_crypto_data (sample_env answers_500) 3 initial_world)))
    = [Request; Wait 5; Request; Wait 5; Request; Wait 5].
Proof.
  apply (fetch_exhausted (sample_env answers_500) 3 initial_world).
  intros j Hj. reflexivity.
Defined.

Lemma fetch_waits_between_attempts_witness :
  exists later,
    io_of (trace (snd (fetch_crypto_data (sample_env answers_429_429_200) 3 initial_world)))
    = [Request; Wait 60; Request] ++ later.
Proof.
  apply (fetch_waits_between_attempts (sample_env answers_429_429_200) 3 initial_world 0 60).
  - cbn. lia.
  - intros j Hj. lia.
  - apply (rate_limited response_429). reflexivity.
Defined.

Lemma fetch_waits_after_last_attempt_witness :
  fst (fetch_crypto_data (sample_env answers_500) 3 initial_world) = Ret None /\
  (exists before,
     trace (snd (fetch_crypto_data (sample_env answers_500) 3 initial_world)) =
     before ++ [EvSleep 5; EvPrint MsgAllFailed]) /\
  (exists before,
     io_of (trace (snd (fetch_crypto_data (sample_env answers_500) 3 initial_world))) =
     before ++ [Request; Wait 5]).
Proof.
  apply (fetch_waits_after_last_attempt (sample_env answers_500) 3 initial_world 5).
  - lia.
  - intros j Hj. reflexivity.
  - apply (other_status response_500); cbn; lia.
Defined.

Lemma fetch_without_attempts_witness :
  fetch_crypto_data (sample_env answers_429_429_200) 0 initial_world =
    (Ret None, mkWorld 0 0 [EvPrint MsgAllFailed]) /\
  io_of (trace (snd (fetch_crypto_data (sample_env answers_429_429_200) 0 initial_world))) = [].
Proof.
  apply (fetch_without_attempts (sample_env answers_429_429_200) 0 initial_world).
  lia.
Defined.

(** The three places where the export can raise, each at a machine or a
    snapshot on which it does. *)
Lemma save_to_excel_never_raises_witness :
  save_to_excel (sample_env answers_500) snapshot_without_id_symbol "data" initial_world =
    (Ret None,
     mkWorld 0 1 [EvMakedirs "data";
                  EvPrint (MsgPreparing "data/crypto_data_2024-03-05.xlsx");
                  EvPrint (MsgMissingColumn "id");
                  EvPrint (MsgErrorSaving (KeyError ["symbol"]))]) /\
  fst (save_to_excel readonly_env sample_snapshot "data" initial_world) = Ret None /\
  fst (save_to_excel (sample_env answers_500) snapshot_without_id_symbol "data" initial_world)
    = Ret None /\
  fst (save_to_excel no_engine_env sample_snapshot "data" initial_world) = Ret None.
Proof.
  split; [| split; [| split]].
  - apply (proj1 (proj2 (save_to_excel_never_raises (sample_env answers_500)
                           snapshot_without_id_symbol "data" initial_world))
             (KeyError ["symbol"])
             (mkWorld 0 1 [EvMakedirs "data";
                           EvPrint (MsgPreparing "data/crypto_data_2024-03-05.xlsx");
                           EvPrint (MsgMissingColumn "id")])).
    vm_compute. reflexivity.
  - apply (proj1 (proj2 (proj2 (save_to_excel_never_raises readonly_env
                                  sample_snapshot "data" initial_world)))
             (OSError "Read-only file system")).
    reflexivity.
  - apply (proj1 (proj2 (proj2 (proj2 (save_to_excel_never_raises (sample_env answers_500)
                                         snapshot_without_id_symbol "data" initial_world))))).
    vm_compute. discriminate.
  - apply (proj2 (proj2 (proj2 (proj2 (save_to_excel_never_raises no_engine_env
                                         sample_snapshot "data" initial_world))))
             (ImportError "No module named 'openpyxl'")).
    reflexivity.
Defined.

(** Three full records on a machine where nothing fails, at 2024-03-05
    07:08:09. *)
Lemma save_to_excel_timestamp_witness :
  exists stamp,
    written (export_events (sample_env answers_500) sample_snapshot "data" initial_world)
      = [("data/crypto_data_2024-03-05.xlsx",
          export_frame (sample_env answers_500) sample_snapshot initial_world)] /\
    df_columns (export_frame (sample_env answers_500) sample_snapshot initial_world)
      = ["id"; "symbol"; "name"; "current_price"; "market_cap"; "total_volume";
         "price_change_percentage_24h"] ++ ["timestamp"] /\
    count_occ string_dec
      (df_columns (export_frame (sample_env answers_500) sample_snapshot initial_world))
      "timestamp" = 1%nat /\
    List.length (df_rows (export_frame (sample_env answers_500) sample_snapshot initial_world))
      = 3%nat /\
    (forall row,
        In row (df_rows (export_frame (sample_env answers_500) sample_snapshot initial_world)) ->
        List.length row
          = List.length (df_columns (export_frame (sample_env answers_500) sample_snapshot
                                       initial_world)) /\
        cell_at (df_columns (export_frame (sample_env answers_500) sample_snapshot
                               initial_world))
                row "timestamp" = CVal (VStr stamp) /\
        last row CNaN = CVal (VStr stamp)) /\
    timestamp_shape stamp = true /\
    read_timestamp stamp = Some (mkDatetime 2024 3 5 7 8 9).
Proof.
  destruct (save_to_excel_timestamp (sample_env answers_500) sample_snapshot "data"
              initial_world "data/crypto_data_2024-03-05.xlsx"
              ltac:(vm_compute; reflexivity))
    as [stamp [Hw [Hc [Hn [Hl [Hrows Hstamp]]]]]].
  exists stamp.
  destruct (Hstamp ltac:(unfold valid_datetime; cbn; lia)) as [Hshape Hread].
  exact (conj Hw (conj Hc (conj Hn (conj Hl (conj Hrows (conj Hshape Hread)))))).
Defined.

(** The same snapshot exported at two different times. *)
Lemma save_to_excel_projection_deterministic_witness :
  without_column "timestamp"
    (export_frame (sample_env_at sample_time) sample_snapshot initial_world)
  = without_column "timestamp"
    (export_frame (sample_env_at (mkDatetime 2024 3 6 23 59 58)) sample_snapshot initial_world).
Proof.
  refine (proj1 (proj2 (proj2 (save_to_excel_projection_deterministic
           (sample_env_at sample_time) (sample_env_at (mkDatetime 2024 3 6 23 59 58))
           sample_snapshot "data" "data" initial_world initial_world
           "data/crypto_data_2024-03-05.xlsx" "data/crypto_data_2024-03-06.xlsx"
           (export_frame (sample_env_at sample_time) sample_snapshot initial_world)
           (export_frame (sample_env_at (mkDatetime 2024 3 6 23 59 58)) sample_snapshot
              initial_world)
           _ _)))).
  - vm_compute. left. reflexivity.
  - vm_compute. left. reflexivity.
Defined.

(** A network that answers 500 three times: [main] stops without an
    export.  A network that answers 429, 429, 200: [main] exports the
    three records to "data". *)
Lemma main_exports_only_fetched_data_witness :
  export_footprint (main_events (sample_env answers_500) initial_world) = [] /\
  exists r w3,
    save_to_excel (sample_env answers_429_429_200) sample_snapshot "data"
      (snd (fetch_crypto_data (sample_env answers_429_429_200) default_max_retries
              (mkWorld 0 0 [EvPrint MsgStarting]))) = (Ret r, w3) /\
    main (sample_env answers_429_429_200) initial_world =
    (Ret tt, mkWorld (n_get w3) (n_now w3)
               (trace w3 ++ [EvPrint match r with
                                     | Some p => MsgCompleted p
                                     | None => MsgSaveFailed
                                     end])).
Proof.
  split.
  - refine (proj2 (proj1 (proj2 (main_exports_only_fetched_data (sample_env answers_500)
                                   initial_world)
                            None
                            (snd (fetch_crypto_data (sample_env answers_500)
                                    default_max_retries
                                    (mkWorld 0 0 [EvPrint MsgStarting])))
                            _)
                     (or_introl eq_refl))).
    vm_compute. reflexivity.
  - refine (proj2 (proj2 (main_exports_only_fetched_data (sample_env answers_429_429_200)
                            initial_world)
                     (Some sample_snapshot)
                     (snd (fetch_crypto_data (sample_env answers_429_429_200)
                             default_max_retries
                             (mkWorld 0 0 [EvPrint MsgStarting])))
                     _)
              sample_snapshot eq_refl _).
    + vm_compute. reflexivity.
    + discriminate.
Defined.

(* ===================================================================== *)
(** ** Whole runs of fetch_crypto_data *)
(* ===================================================================== *)

Section FetchRuns.

Variable env : environment.

(** The loop in closed form, whatever the answers are. *)
Lemma fetch_loop_run (max_retries : Z) (attempts : list Z) :
  forall w,
    fetch_loop env max_retries attempts w =
    (Ret (first_parsed env (n_get w) (List.length attempts)),
     mkWorld (n_get w + attempts_made env (n_get w) (List.length attempts)) (n_now w)
             (trace w ++ fetch_events env max_retries (n_get w) attempts)).
Proof.
  induction attempts as [| a rest IH]; intros w.
  - cbn. now rewrite Nat.add_0_r.
  - cbn [fetch_loop List.length first_parsed attempts_made fetch_events].
    unfold bind at 1. rewrite fetch_attempt_run.
    destruct (parsed (http env (n_get w))) as [data |].
    + unfold ret. now rewrite app_nil_r, Nat.add_1_r.
    + rewrite IH. cbn [n_get n_now trace]. rewrite <- app_assoc, Nat.add_succ_r.
      reflexivity.
Qed.

Lemma fetch_new_events_run (max_retries : Z) (w : world) :
  fetch_new_events env max_retries w =
  fetch_events env max_retries (n_get w) (range max_retries).
Proof.
  unfold fetch_new_events, fetch_crypto_data. rewrite fetch_loop_run.
  cbn [snd trace]. apply skipn_app_length.
Qed.


Lemma attempts_made_le (n : nat) : forall first, (attempts_made env first n <= n)%nat.
Proof.
  induction n as [| n IH]; intros first; cbn; [lia |].
  destruct (parsed (http env first)); [lia |]. specialize (IH (S first)). lia.
Qed.

Lemma count_requests_app (l1 l2 : list io) :
  count_requests (l1 ++ l2) = (count_requests l1 + count_requests l2)%nat.
Proof. unfold count_requests. now rewrite filter_app, length_app. Qed.

Lemma total_wait_app (l1 l2 : list io) :
  total_wait (l1 ++ l2) = total_wait l1 + total_wait l2.
Proof.
  induction l1 as [| x l1 IH]; [reflexivity |].
  destruct x; cbn; rewrite IH; lia.
Qed.

(** One attempt: one request, and at most one wait, of 5 or 60 seconds. *)
Lemma io_of_attempt_cases (max_retries attempt : Z) (o : exn + response) :
  io_of (attempt_events max_retries attempt o) = [Request] /\ parsed o <> None \/
  io_of (attempt_events max_retries attempt o) = [Request; Wait 5] /\ parsed o = None \/
  io_of (attempt_events max_retries attempt o) = [Request; Wait 60] /\ parsed o = None.
Proof.
  destruct (parsed o) as [data |] eqn:Hp.
  - left. rewrite (io_of_attempt_parsed _ _ _ _ Hp). split; [reflexivity | discriminate].
  - right. rewrite (io_of_attempt_failed _ _ _ Hp).
    unfold retry_delay. destruct o as [e | r]; [now left |].
    destruct (status_code r =? 429); [now right | now left].
Qed.

Lemma fetch_events_io (max_retries : Z) (attempts : list Z) :
  forall first,
    count_requests (io_of (fetch_events env max_retries first attempts))
      = attempts_made env first (List.length attempts) /\
    0 <= total_wait (io_of (fetch_events env max_retries first attempts))
      <= 60 * Z.of_nat (attempts_made env first (List.length attempts)) /\
    Forall (fun x => x = Request \/ x = Wait 5 \/ x = Wait 60)
           (io_of (fetch_events env max_retries first attempts)).
Proof.
  induction attempts as [| a rest IH]; intros first.
  - cbn. split; [reflexivity | split; [lia | constructor]].
  - cbn [fetch_events List.length attempts_made].
    rewrite io_of_app, count_requests_app, total_wait_app.
    destruct (io_of_attempt_cases max_retries a (http env first))
      as [[Hio Hp] | [[Hio Hp] | [Hio Hp]]]; rewrite Hio.
    + destruct (parsed (http env first)); [| contradiction].
      split; [reflexivity | split; [cbn [io_of total_wait]; lia |]].
      constructor; [now left | constructor].
    + rewrite Hp. destruct (IH (S first)) as [Hc [Hw Hf]]. rewrite Hc.
      split; [reflexivity | split; [cbn [total_wait]; lia |]].
      apply Forall_app. split; [| exact Hf].
      constructor; [now left | constructor; [right; now left | constructor]].
    + rewrite Hp. destruct (IH (S first)) as [Hc [Hw Hf]]. rewrite Hc.
      split; [reflexivity | split; [cbn [total_wait]; lia |]].
      apply Forall_app. split; [| exact Hf].
      constructor; [now left | constructor; [right; now right | constructor]].
Qed.

Lemma attempts_made_pos (n : nat) (first : nat) :
  (0 < n)%nat -> (1 <= attempts_made env first n)%nat.
Proof.
  intros Hn. destruct n as [| n]; [lia |]. cbn.
  destruct (parsed (http env first)); lia.
Qed.

End FetchRuns.

Lemma slice_to_length (n : nat) (s : string) : (String.length (slice_to n s) <= n)%nat.
Proof.
  unfold slice_to. revert s. induction n as [| n IH]; intros s.
  - destruct s; cbn; lia.
  - destruct s as [| c s]; cbn; [lia |]. specialize (IH s). lia.
Qed.

Lemma slice_to_prefix (n : nat) (s : string) : String.prefix (slice_to n s) s = true.
Proof.
  unfold slice_to. revert s. induction n as [| n IH]; intros s.
  - destruct s; reflexivity.
  - destruct s as [| c s]; cbn; [reflexivity |].
    destruct (Ascii.ascii_dec c c) as [_ | Hne]; [apply IH | contradiction].
Qed.

Lemma slice_to_short (n : nat) (s : string) :
  (String.length s <= n)%nat -> slice_to n s = s.
Proof.
  unfold slice_to. revert s. induction n as [| n IH]; intros s Hlen.
  - destruct s; [reflexivity | cbn in Hlen; lia].
  - destruct s as [| c s]; cbn; [reflexivity |]. rewrite IH; [reflexivity |].
    cbn in Hlen. lia.
Qed.

Lemma quoted_content_app (t1 t2 : list event) :
  quoted_content (t1 ++ t2) = quoted_content t1 ++ quoted_content t2.
Proof.
  induction t1 as [| e t1 IH]; [reflexivity |].
  destruct e as [m | | | |]; try exact IH.
  destruct m; try exact IH. cbn. now rewrite IH.
Qed.

Lemma quoted_content_attempt (max_retries attempt : Z) (o : exn + response) (p : string) :
  In p (quoted_content (attempt_events max_retries attempt o)) ->
  exists r, o = inr r /\ status_code r <> 200 /\ status_code r <> 429 /\
            p = slice_to 200 (text r).
Proof.
  unfold attempt_events. destruct o as [e | r]; cbn; [contradiction |].
  destruct (Z.eqb_spec (status_code r) 200) as [E | E].
  - destruct (json r); cbn; contradiction.
  - destruct (Z.eqb_spec (status_code r) 429) as [E' | E']; cbn; [contradiction |].
    intros [<- | []]. now exists r.
Qed.

Lemma quoted_content_fetch_events (env : environment) (max_retries : Z)
    (attempts : list Z) (p : string) :
  forall first,
    In p (quoted_content (fetch_events env max_retries first attempts)) ->
    exists k r, (first <= k < first + List.length attempts)%nat /\
                http env k = inr r /\ status_code r <> 200 /\ status_code r <> 429 /\
                p = slice_to 200 (text r).
Proof.
  induction attempts as [| a rest IH]; intros first; cbn [fetch_events].
  - cbn. contradiction.
  - rewrite quoted_content_app, in_app_iff. intros [Hin | Hin].
    + apply quoted_content_attempt in Hin. destruct Hin as [r [Hr [H200 [H429 Hp]]]].
      exists first, r. cbn [List.length]. repeat split; try assumption; lia.
    + destruct (parsed (http env first)); [cbn in Hin; contradiction |].
      apply IH in Hin. destruct Hin as [k [r [Hk [Hr [H200 [H429 Hp]]]]]].
      exists k, r. cbn [List.length]. repeat split; try assumption; lia.
Qed.

(* ===================================================================== *)
(** ** Further properties of fetch_crypto_data *)
(* ===================================================================== *)

Section FetchProperties.

Variable env : environment.



(** X2.  The call issues at most [max_retries] requests, and at least one
    unless [max_retries] is zero or negative; the request counter of the
    world advances by the number of requests in the trace. *)
Theorem fetch_request_count (max_retries : Z) (w : world) :
  (count_requests (io_of (fetch_new_events env max_retries w)) <= Z.to_nat max_retries)%nat /\
  (count_requests (io_of (fetch_new_events env max_retries w)) = 0%nat <-> max_retries <= 0) /\
  n_get (snd (fetch_crypto_data env max_retries w)) =
    (n_get w + count_requests (io_of (fetch_new_events env max_retries w)))%nat /\
  n_now (snd (fetch_crypto_data env max_retries w)) = n_now w.
Proof.
  rewrite fetch_new_events_run.
  destruct (fetch_events_io env max_retries (range max_retries) (n_get w)) as [Hc _].
  rewrite Hc, length_range. unfold fetch_crypto_data.
  rewrite fetch_loop_run, length_range. cbn [snd n_get n_now].
  pose proof (attempts_made_le env (Z.to_nat max_retries) (n_get w)) as Hle.
  repeat split; try lia.
  intros H0. destruct (Z.to_nat max_retries) as [| n] eqn:Hn; [lia |].
  pose proof (attempts_made_pos env (S n) (n_get w) ltac:(lia)). lia.
Qed.

(** X3.  The call never sleeps longer than 60 seconds per allowed attempt
    in total, and every single sleep lasts 5 or 60 seconds. *)
Theorem fetch_wait_bound (max_retries : Z) (w : world) :
  0 <= total_wait (io_of (fetch_new_events env max_retries w)) <= 60 * Z.max 0 max_retries /\
  Forall (fun x => x = Request \/ x = Wait 5 \/ x = Wait 60)
         (io_of (fetch_new_events env max_retries w)).
Proof.
  rewrite fetch_new_events_run.
  destruct (fetch_events_io env max_retries (range max_retries) (n_get w)) as [_ [Hw Hf]].
  rewrite length_range in Hw.
  pose proof (attempts_made_le env (Z.to_nat max_retries) (n_get w)) as Hle.
  split; [lia | exact Hf].
Qed.

(** X4.  A diagnostic that quotes a response body quotes at most its first
    200 characters: the quoted text is a prefix of the body of an answer
    whose status is neither 200 nor 429, and is the whole body when that
    has no more than 200 characters. *)
Theorem fetch_quotes_at_most_200 (max_retries : Z) (w : world) (p : string) :
  In p (quoted_content (fetch_new_events env max_retries w)) ->
  (String.length p <= 200)%nat /\
  exists k r,
    (n_get w <= k < n_get w + Z.to_nat max_retries)%nat /\
    http env k = inr r /\
    status_code r <> 200 /\ status_code r <> 429 /\
    String.prefix p (text r) = true /\
    ((String.length (text r) <= 200)%nat -> p = text r).
Proof.
  rewrite fetch_new_events_run. intros Hin.
  apply quoted_content_fetch_events in Hin.
  destruct Hin as [k [r [Hk [Hr [H200 [H429 ->]]]]]].
  split; [apply slice_to_length |].
  exists k, r. rewrite length_range in Hk.
  repeat split; try assumption; try lia.
  - apply slice_to_prefix.
  - apply slice_to_short.
Qed.

End FetchProperties.

(* ===================================================================== *)
(** ** Further facts about the column check and the frame *)
(* ===================================================================== *)

(** The selection of the kept columns goes through exactly when no two
    neighbours of the list are both missing from the frame. *)
Lemma kept_present_iff_no_adjacent (df_cols : list string) :
  forall (n : nat) (cols : list string),
    (List.length cols <= n)%nat ->
    forallb (fun c => mem c df_cols) (kept_columns df_cols cols) = true <->
    adjacent_absent df_cols cols = false.
Proof.
  induction n as [| n IH]; intros cols Hlen.
  - destruct cols; [now split | cbn in Hlen; lia].
  - destruct cols as [| c rest]; [now split |].
    cbn [kept_columns adjacent_absent].
    destruct (mem c df_cols) eqn:Hc; cbn [negb andb orb].
    + cbn [forallb]. rewrite Hc. cbn [andb].
      rewrite (IH rest ltac:(cbn in Hlen; lia)).
      destruct rest; [now split | reflexivity].
    + destruct rest as [| c' rest]; [now split |].
      cbn [forallb]. destruct (mem c' df_cols) eqn:Hc'; cbn [negb andb orb].
      * rewrite (IH rest ltac:(cbn in Hlen; lia)).
        cbn [adjacent_absent]. rewrite Hc'. cbn [negb andb orb].
        destruct rest; [now split | reflexivity].
      * split; discriminate.
Qed.

Lemma warned_columns_absent (df_cols : list string) :
  forall (n : nat) (cols : list string) (c : string),
    (List.length cols <= n)%nat ->
    In c (warned_columns df_cols cols) -> In c cols /\ mem c df_cols = false.
Proof.
  induction n as [| n IH]; intros cols c Hlen Hin.
  - destruct cols; [destruct Hin | cbn in Hlen; lia].
  - destruct cols as [| x rest]; [destruct Hin |].
    cbn [warned_columns] in Hin. destruct (mem x df_cols) eqn:Hx.
    + destruct (IH rest c ltac:(cbn in Hlen; lia) Hin) as [H1 H2].
      split; [now right | exact H2].
    + destruct Hin as [<- | Hin]; [split; [now left | exact Hx] |].
      destruct rest as [| x' rest]; [destruct Hin |].
      destruct (IH rest c ltac:(cbn in Hlen; lia) Hin) as [H1 H2].
      split; [right; now right | exact H2].
Qed.

Lemma warned_columns_NoDup (df_cols : list string) :
  forall (n : nat) (cols : list string),
    (List.length cols <= n)%nat -> NoDup cols -> NoDup (warned_columns df_cols cols).
Proof.
  induction n as [| n IH]; intros cols Hlen Hnd.
  - destruct cols; [constructor | cbn in Hlen; lia].
  - destruct cols as [| x rest]; [constructor |].
    inversion Hnd as [| ? ? Hx Hrest]; subst.
    cbn [warned_columns]. destruct (mem x df_cols).
    + apply IH; [cbn in Hlen; lia | exact Hrest].
    + destruct rest as [| x' rest]; [repeat constructor; intros [] |].
      inversion Hrest as [| ? ? Hx' Hrest']; subst.
      constructor.
      * intros Hin. apply (warned_columns_absent df_cols _ _ _ (le_n _)) in Hin.
        apply Hx. right. exact (proj1 Hin).
      * apply IH; [cbn in Hlen; lia | exact Hrest'].
Qed.

(** The loop loses no column: what it keeps and what it warns about make
    up the list it started from. *)
Lemma kept_warned_permutation (df_cols : list string) :
  forall (n : nat) (cols : list string),
    (List.length cols <= n)%nat ->
    Permutation (kept_columns df_cols cols ++ warned_columns df_cols cols) cols.
Proof.
  induction n as [| n IH]; intros cols Hlen.
  - destruct cols; [constructor | cbn in Hlen; lia].
  - destruct cols as [| c rest]; [constructor |].
    cbn [kept_columns warned_columns]. destruct (mem c df_cols).
    + cbn [app]. constructor. apply IH. cbn in Hlen. lia.
    + destruct rest as [| c' rest]; [cbn; constructor; constructor |].
      cbn [app].
      apply perm_trans with (c' :: c :: rest); [| apply perm_swap].
      constructor. apply Permutation_sym, Permutation_cons_app, Permutation_sym.
      apply IH. cbn in Hlen. lia.
Qed.

Lemma has_key_In (c : string) (r : MarketRecord) :
  has_key c r = true <-> In c (map fst r).
Proof.
  unfold has_key. induction r as [| [k v] r IH]; cbn.
  - split; [discriminate | contradiction].
  - destruct (String.eqb_spec c k) as [-> | Hne].
    + split; [now left | reflexivity].
    + rewrite IH. split; [now right | intros [H | H]; [congruence | exact H]].
Qed.

Lemma add_keys_spec (r : MarketRecord) :
  forall (acc : list string),
    NoDup acc ->
    NoDup (add_keys acc r) /\
    forall c, In c (add_keys acc r) <-> In c acc \/ In c (map fst r).
Proof.
  unfold add_keys. induction r as [| [k v] r IH]; intros acc Hnd; cbn [fold_left map fst].
  - split; [exact Hnd | intros c; cbn; tauto].
  - destruct (mem k acc) eqn:Hk.
    + destruct (IH acc Hnd) as [H1 H2]. split; [exact H1 |].
      intros c. rewrite H2. apply mem_In in Hk. cbn [In].
      split; [tauto | intros [H | [<- | H]]; tauto].
    + assert (Hnot : ~ In k acc) by (intros H; apply mem_In in H; congruence).
      assert (Hnd' : NoDup (acc ++ [k])).
      { apply NoDup_app; [exact Hnd | repeat constructor; intros [] |].
        intros x Hx [<- | []]. contradiction. }
      destruct (IH (acc ++ [k]) Hnd') as [H1 H2]. split; [exact H1 |].
      intros c. rewrite H2, in_app_iff. cbn [In]. tauto.
Qed.

Lemma fold_add_keys_spec (data : Snapshot) :
  forall (acc : list string),
    NoDup acc ->
    NoDup (fold_left add_keys data acc) /\
    forall c, In c (fold_left add_keys data acc) <->
              In c acc \/ exists r, In r data /\ has_key c r = true.
Proof.
  induction data as [| r data IH]; intros acc Hnd; cbn [fold_left].
  - split; [exact Hnd |]. intros c. split; [now left | intros [H | [r [[] _]]]; exact H].
  - destruct (add_keys_spec r acc Hnd) as [Hnd' Hin'].
    destruct (IH (add_keys acc r) Hnd') as [H1 H2]. split; [exact H1 |].
    intros c. rewrite H2, Hin'. split.
    + intros [[H | H] | [r' [Hr' Hk]]].
      * now left.
      * right. exists r. split; [now left | now apply has_key_In].
      * right. exists r'. split; [now right | exact Hk].
    + intros [H | [r' [[<- | Hr'] Hk]]].
      * left. now left.
      * left. right. now apply has_key_In.
      * right. now exists r'.
Qed.

(* ===================================================================== *)
(** ** Further properties of save_to_excel *)
(* ===================================================================== *)

Section ExportProperties.

Variable env : environment.

Ltac export_split :=
  rewrite ?save_to_excel_run, ?save_to_excel_body_run;
  cbn zeta;
  destruct (makedirs_raises env _) as [? |] eqn:?;
  [| destruct (filter _ (kept_columns _ columns_to_keep)) as [| ? ?] eqn:?;
     [ destruct (to_excel_raises env _ _) as [? |] eqn:?;
       [| destruct (path_exists env _) eqn:?;
          [ destruct (path_getsize env _) as [? | ?] eqn:? |] ] |] ];
  cbn [fst snd n_get n_now trace];
  rewrite <- ?app_assoc, ?skipn_app_length.

Lemma missing_nil_iff_no_adjacent (data : Snapshot) :
  filter (fun c => negb (mem c (frame_columns data)))
         (kept_columns (frame_columns data) columns_to_keep) = [] <->
  adjacent_absent (frame_columns data) columns_to_keep = false.
Proof.
  rewrite missing_nil_iff. apply (kept_present_iff_no_adjacent _ _ _ (le_n _)).
Qed.

(** X5.  The call returns a path exactly when the directory can be made,
    no two neighbours of the allow-list are both missing from the
    snapshot, the file can be written, is found afterwards and its size
    can be read; the path is then the directory joined with
    crypto_data_<date>.xlsx.  In every other case it returns [None]. *)
Theorem export_returns_path_iff (data : Snapshot) (directory : string) (w : world)
    (path : string) :
  fst (save_to_excel env data directory w) = Ret (Some path) <->
  path = export_path env directory w /\
  makedirs_raises env directory = None /\
  adjacent_absent (frame_columns data) columns_to_keep = false /\
  to_excel_raises env (export_path env directory w) (export_frame env data w) = None /\
  path_exists env (export_path env directory w) = true /\
  exists size, path_getsize env (export_path env directory w) = inr size.
Proof.
  rewrite <- missing_nil_iff_no_adjacent.
  export_split; (split; [intros H; try discriminate H | intros [? [? [? [? [? [? ?]]]]]];
                          try discriminate; try congruence]).
  injection H as <-. repeat split. now eexists.
Qed.

(** The warnings of a call, in closed form. *)
Lemma export_warnings (data : Snapshot) (directory : string) (w : world) :
  warnings_in (export_events env data directory w) =
  match makedirs_raises env directory with
  | Some _ => []
  | None => warned_columns (frame_columns data) columns_to_keep
  end.
Proof.
  unfold export_events. export_split;
    cbn [app warnings_in]; rewrite ?warnings_in_app, ?warnings_in_warnings;
    cbn [warnings_in]; now rewrite ?app_nil_r.
Qed.

(** X6.  Whatever happens later in the call, a warning is only ever
    printed for an allow-listed column that no record of the snapshot has,
    and never twice for the same column. *)
Theorem export_warnings_sound (data : Snapshot) (directory : string) (w : world) :
  NoDup (warnings_in (export_events env data directory w)) /\
  forall c,
    In c (warnings_in (export_events env data directory w)) ->
    In c (absent_columns data).
Proof.
  rewrite export_warnings. destruct (makedirs_raises env directory).
  - split; [constructor | intros c []].
  - split.
    + apply (warned_columns_NoDup _ _ _ (le_n _)), NoDup_columns_to_keep.
    + intros c Hin. apply (warned_columns_absent _ _ _ _ (le_n _)) in Hin.
      unfold absent_columns. apply filter_In. destruct Hin as [H1 H2].
      split; [exact H1 | now rewrite H2].
Qed.

(** X10.  The result [None] does not mean that nothing was written: when
    the file is written but is not found afterwards, or its size cannot be
    read, the call returns [None] and the table has been written. *)
Theorem export_none_after_write (data : Snapshot) (directory : string) (w : world) :
  makedirs_raises env directory = None ->
  adjacent_absent (frame_columns data) columns_to_keep = false ->
  to_excel_raises env (export_path env directory w) (export_frame env data w) = None ->
  (path_exists env (export_path env directory w) = false \/
   exists e, path_getsize env (export_path env directory w) = inl e) ->
  fst (save_to_excel env data directory w) = Ret None /\
  written (export_events env data directory w) =
    [(export_path env directory w, export_frame env data w)].
Proof.
  intros Hmk Hadj Hto Hgone. apply missing_nil_iff_no_adjacent in Hadj.
  unfold export_events. rewrite save_to_excel_run, save_to_excel_body_run. cbn zeta.
  rewrite Hmk, Hadj, Hto.
  destruct (path_exists env (export_path env directory w)) eqn:Hex.
  - destruct Hgone as [Hgone | [e He]]; [discriminate |]. rewrite He.
    cbn [fst snd trace]. rewrite <- !app_assoc, skipn_app_length.
    cbn [app written]. now rewrite !written_app, written_warnings.
  - cbn [fst snd trace]. rewrite <- !app_assoc, skipn_app_length.
    cbn [app written]. now rewrite !written_app, written_warnings.
Qed.

(** X11.  An empty snapshot cannot be exported: its frame has no columns,
    the loop drops "id", "name", "market_cap" and
    "price_change_percentage_24h" and skips the three columns in between,
    and selecting those raises.  Nothing is written and the call returns
    [None]. *)
Theorem export_empty_snapshot (directory : string) (w : world) :
  fst (save_to_excel env [] directory w) = Ret None /\
  written (export_events env [] directory w) = [] /\
  export_events env [] directory w =
    match makedirs_raises env directory with
    | Some e => [EvPrint (MsgErrorSaving e)]
    | None =>
        [EvMakedirs directory;
         EvPrint (MsgPreparing (export_path env directory w));
         EvPrint (MsgMissingColumn "id");
         EvPrint (MsgMissingColumn "name");
         EvPrint (MsgMissingColumn "market_cap");
         EvPrint (MsgMissingColumn "price_change_percentage_24h");
         EvPrint (MsgErrorSaving (KeyError ["symbol"; "current_price"; "total_volume"]))]
    end.
Proof.
  unfold export_events. rewrite save_to_excel_run, save_to_excel_body_run. cbn zeta.
  change (filter (fun c => negb (mem c (frame_columns [])))
            (kept_columns (frame_columns []) columns_to_keep))
    with ["symbol"; "current_price"; "total_volume"].
  change (warned_columns (frame_columns []) columns_to_keep)
    with ["id"; "name"; "market_cap"; "price_change_percentage_24h"].
  destruct (makedirs_raises env directory) as [e |];
    cbn [fst snd n_get n_now trace warnings map app];
    rewrite <- ?app_assoc, ?skipn_app_length; now repeat split.
Qed.

(** The export keeps away from the network. *)
Lemma export_no_io (data : Snapshot) (directory : string) (w : world) :
  io_of (export_events env data directory w) = [] /\
  n_get (snd (save_to_excel env data directory w)) = n_get w /\
  (List.length (written (export_events env data directory w)) <= 1)%nat /\
  trace (snd (save_to_excel env data directory w)) =
    trace w ++ export_events env data directory w.
Proof.
  assert (Hio : forall cols, io_of (warnings cols) = []).
  { induction cols as [| c cols IH]; [reflexivity | exact IH]. }
  unfold export_events. export_split;
    cbn [app io_of written];
    rewrite ?io_of_app, ?written_app, ?Hio, ?written_warnings;
    cbn [app io_of written List.length]; repeat split; lia.
Qed.

End ExportProperties.

(** X7.  On a list without duplicates the column loop loses nothing: the
    columns it returns together with the columns it warns about are the
    columns it was given, it warns only about columns that are not in the
    frame, and it leaves the counters of the world alone. *)
Theorem check_columns_partition (df_cols keep : list string) (w : world) :
  NoDup keep ->
  exists kept,
    fst (check_columns (len keep) df_cols 0 keep w) = Ret kept /\
    Permutation
      (kept ++ warnings_in (skipn (List.length (trace w))
                              (trace (snd (check_columns (len keep) df_cols 0 keep w)))))
      keep /\
    (forall c,
        In c (warnings_in (skipn (List.length (trace w))
                             (trace (snd (check_columns (len keep) df_cols 0 keep w))))) ->
        mem c df_cols = false) /\
    (forall c, In c keep -> mem c df_cols = true -> In c kept).
Proof.
  intros Hnd.
  pose proof (check_columns_run df_cols (len keep) [] keep w Hnd (le_n _)) as Hrun.
  cbn [List.length app] in Hrun. rewrite Hrun.
  cbn [app fst snd trace]. rewrite skipn_app_length, warnings_in_warnings.
  exists (kept_columns df_cols keep).
  pose proof (kept_warned_permutation df_cols _ keep (le_n _)) as Hperm.
  repeat split.
  - exact Hperm.
  - intros c Hin. now apply (warned_columns_absent df_cols _ keep c (le_n _)).
  - intros c Hin Hmem.
    apply (Permutation_in _ (Permutation_sym Hperm)) in Hin.
    apply in_app_or in Hin. destruct Hin as [Hin | Hin]; [exact Hin |].
    apply (warned_columns_absent df_cols _ keep c (le_n _)) in Hin.
    destruct Hin as [_ Hin]. congruence.
Qed.

(** The frame built from a snapshot has one column per key that occurs in
    some record, each once, and one row per record with one cell per
    column. *)
Lemma DataFrame_of_shape (data : Snapshot) :
  NoDup (df_columns (DataFrame_of data)) /\
  (forall c, In c (df_columns (DataFrame_of data)) <->
             exists r, In r data /\ has_key c r = true) /\
  List.length (df_rows (DataFrame_of data)) = List.length data /\
  Forall (fun row => List.length row = List.length (df_columns (DataFrame_of data)))
         (df_rows (DataFrame_of data)).
Proof.
  cbn [DataFrame_of df_columns df_rows]. unfold frame_columns.
  destruct (fold_add_keys_spec data [] (NoDup_nil _)) as [Hnd Hin].
  split; [exact Hnd |]. split.
  - intros c. rewrite Hin. split; [intros [[] | H]; exact H | now right].
  - split; [apply length_map |].
    apply Forall_forall. intros row Hrow. apply in_map_iff in Hrow.
    destruct Hrow as [r [<- _]]. apply length_map.
Qed.

(** X9.  In the table of a call that returns a path, a column is exported
    as soon as one record has it: the columns are "timestamp" and every
    allow-listed key that occurs in at least one record of the snapshot. *)
Theorem export_columns_iff (env : environment) (data : Snapshot) (directory : string)
    (w : world) (path : string) :
  fst (save_to_excel env data directory w) = Ret (Some path) ->
  forall c,
    In c (df_columns (export_frame env data w)) <->
    c = "timestamp" \/
    (In c columns_to_keep /\ exists r, In r data /\ has_key c r = true).
Proof.
  intros Hok c.
  destruct (export_schema_on_success env data directory w path Hok) as [Hcols _].
  rewrite Hcols, in_app_iff. unfold present_columns. rewrite filter_In, mem_In.
  destruct (DataFrame_of_shape data) as [_ [Hin _]]. cbn [DataFrame_of df_columns] in Hin.
  rewrite Hin. cbn [In]. split.
  - intros [H | [<- | []]]; [now right | now left].
  - intros [-> | H]; [right; now left | now left].
Qed.

(* ===================================================================== *)
(** ** Dates in file names and timestamps *)
(* ===================================================================== *)

Lemma digit_inj (a b : Z) : digit a = digit b -> a mod 10 = b mod 10.
Proof.
  unfold digit. intros H. apply (f_equal nat_of_ascii) in H.
  pose proof (Z.mod_pos_bound a 10 ltac:(lia)) as Ha.
  pose proof (Z.mod_pos_bound b 10 ltac:(lia)) as Hb.
  rewrite !nat_ascii_embedding in H by lia. lia.
Qed.

Lemma two_digits_inj (a b : Z) :
  0 <= a <= 99 -> 0 <= b <= 99 ->
  digit (a / 10) = digit (b / 10) -> digit a = digit b -> a = b.
Proof.
  intros Ha Hb H1 H0. apply digit_inj in H1, H0.
  Z.div_mod_to_equations. lia.
Qed.

Lemma four_digits_inj (a b : Z) :
  0 <= a <= 9999 -> 0 <= b <= 9999 ->
  digit (a / 1000) = digit (b / 1000) -> digit (a / 100) = digit (b / 100) ->
  digit (a / 10) = digit (b / 10) -> digit a = digit b -> a = b.
Proof.
  intros Ha Hb H3 H2 H1 H0. apply digit_inj in H3, H2, H1, H0.
  Z.div_mod_to_equations. lia.
Qed.

Lemma append_inj_r (s a b : string) : (s ++ a = s ++ b)%string -> a = b.
Proof.
  induction s as [| c s IH]; cbn; intros H; [exact H |].
  injection H as H. now apply IH.
Qed.

Lemma path_join_inj (directory f1 f2 : string) :
  path_join directory f1 = path_join directory f2 -> f1 = f2.
Proof.
  unfold path_join. destruct (String.eqb directory ""); [easy |].
  destruct (ends_with_slash directory); intros H.
  - now apply append_inj_r in H.
  - apply append_inj_r in H. now apply (append_inj_r "/") in H.
Qed.

Lemma strftime_date_inj (t1 t2 : datetime) :
  valid_datetime t1 -> valid_datetime t2 ->
  strftime_date t1 = strftime_date t2 ->
  year t1 = year t2 /\ month t1 = month t2 /\ day t1 = day t2.
Proof.
  intros [Hy1 [Hm1 [Hd1 _]]] [Hy2 [Hm2 [Hd2 _]]].
  unfold strftime_date, pad4, pad2. cbn [String.append].
  intros H. injection H as Y3 Y2 Y1 Y0 M1 M0 D1 D0.
  repeat split.
  - apply four_digits_inj; assumption || lia.
  - apply two_digits_inj; assumption || lia.
  - apply two_digits_inj; assumption || lia.
Qed.

(** X12.  Two exports into the same directory go to the same file exactly
    when the dates read at their start agree: a second export on the same
    day replaces the file of the first, exports on different days never
    touch each other's file. *)
Theorem export_path_same_day_iff (env1 env2 : environment) (directory : string)
    (w1 w2 : world) :
  valid_datetime (clock env1 (n_now w1)) ->
  valid_datetime (clock env2 (n_now w2)) ->
  export_path env1 directory w1 = export_path env2 directory w2 <->
  year (clock env1 (n_now w1)) = year (clock env2 (n_now w2)) /\
  month (clock env1 (n_now w1)) = month (clock env2 (n_now w2)) /\
  day (clock env1 (n_now w1)) = day (clock env2 (n_now w2)).
Proof.
  intros Hv1 Hv2. unfold export_path. split.
  - intros H. apply path_join_inj in H. apply (append_inj_r "crypto_data_") in H.
    apply strftime_date_inj; [exact Hv1 | exact Hv2 |].
    revert H. unfold strftime_date, pad4, pad2. cbn [String.append].
    intros H. injection H as Y3 Y2 Y1 Y0 M1 M0 D1 D0. congruence.
  - intros [Hy [Hm Hd]]. unfold strftime_date. now rewrite Hy, Hm, Hd.
Qed.

(** X13.  The timestamp text loses nothing down to the second: two clock
    readings that print the same timestamp are the same reading. *)
Theorem strftime_datetime_injective (t1 t2 : datetime) :
  valid_datetime t1 -> valid_datetime t2 ->
  strftime_datetime t1 = strftime_datetime t2 -> t1 = t2.
Proof.
  intros Hv1 Hv2.
  pose proof Hv1 as [_ [_ [_ [Hh1 [Hn1 Hs1]]]]].
  pose proof Hv2 as [_ [_ [_ [Hh2 [Hn2 Hs2]]]]].
  unfold strftime_datetime. intros H.
  assert (Hdate : strftime_date t1 = strftime_date t2 /\
                  digit (hour t1 / 10) = digit (hour t2 / 10) /\
                  digit (hour t1) = digit (hour t2) /\
                  digit (minute t1 / 10) = digit (minute t2 / 10) /\
                  digit (minute t1) = digit (minute t2) /\
                  digit (second t1 / 10) = digit (second t2 / 10) /\
                  digit (second t1) = digit (second t2)).
  { revert H. unfold strftime_date, pad4, pad2. cbn [String.append].
    intros H. injection H as Y3 Y2 Y1 Y0 M1 M0 D1 D0 H1 H0 N1 N0 S1 S0.
    repeat split; congruence. }
  destruct Hdate as [Hdate [H1 [H0 [N1 [N0 [S1 S0]]]]]].
  destruct (strftime_date_inj t1 t2 Hv1 Hv2 Hdate) as [Hy [Hm Hd]].
  assert (Hh : hour t1 = hour t2) by (apply two_digits_inj; assumption || lia).
  assert (Hn : minute t1 = minute t2) by (apply two_digits_inj; assumption || lia).
  assert (Hs : second t1 = second t2) by (apply two_digits_inj; assumption || lia).
  destruct t1, t2. cbn in *. congruence.
Qed.

(* ===================================================================== *)
(** ** Whole runs of main *)
(* ===================================================================== *)

Section MainRuns.

Variable env : environment.

(** [main], step by step. *)
Lemma main_run (w : world) :
  main env w =
  match fetch_crypto_data env default_max_retries
          (mkWorld (n_get w) (n_now w) (trace w ++ [EvPrint MsgStarting])) with
  | (Ret data, w2) =>
      if negb (truthy_data data) || Nat.eqb (len_data data) 0 then
        (Ret tt, mkWorld (n_get w2) (n_now w2) (trace w2 ++ [EvPrint MsgNoData]))
      else
        match data with
        | Some snapshot =>
            match save_to_excel env snapshot default_directory w2 with
            | (Ret r, w3) =>
                (if truthy_path r then
                   match r with
                   | Some p => print (MsgCompleted p)
                   | None => ret tt
                   end
                 else print MsgSaveFailed) w3
            | (Raise e, w3) => (Raise e, w3)
            end
        | None => (Ret tt, w2)
        end
  | (Raise e, w2) => (Raise e, w2)
  end.
Proof.
  unfold main. unfold bind at 1. unfold print at 1, emit at 1.
  unfold bind at 1.
  destruct (fetch_crypto_data env default_max_retries _) as [[data | e] w2];
    [| reflexivity].
  destruct (negb (truthy_data data) || Nat.eqb (len_data data) 0); [reflexivity |].
  destruct data as [snapshot |]; [| reflexivity].
  unfold bind at 1.
  destruct (save_to_excel env snapshot default_directory w2) as [[r | e] w3]; reflexivity.
Qed.

(** What [main] adds to the trace: the start line, the events of the
    fetch, and then either the "no data" line, or the events of one export
    of the fetched records followed by the line that reports its result. *)
Lemma main_events_cases (w : world) :
  let w1 := mkWorld (n_get w) (n_now w) (trace w ++ [EvPrint MsgStarting]) in
  let w2 := snd (fetch_crypto_data env default_max_retries w1) in
  (main_events env w =
     EvPrint MsgStarting :: fetch_new_events env default_max_retries w1
       ++ [EvPrint MsgNoData]) \/
  (exists snapshot,
      fst (fetch_crypto_data env default_max_retries w1) = Ret (Some snapshot) /\
      snapshot <> [] /\
      main_events env w =
        EvPrint MsgStarting :: fetch_new_events env default_max_retries w1
          ++ export_events env snapshot default_directory w2
          ++ [EvPrint match fst (save_to_excel env snapshot default_directory w2) with
                      | Ret (Some p) => MsgCompleted p
                      | _ => MsgSaveFailed
                      end]).
Proof.
  intros w1 w2. unfold main_events. rewrite main_run. fold w1.
  assert (Hf : trace w2 = trace w ++ EvPrint MsgStarting
                           :: fetch_new_events env default_max_retries w1).
  { subst w2. rewrite fetch_new_events_run. unfold fetch_crypto_data.
    rewrite fetch_loop_run. subst w1. cbn [snd trace n_get].
    now rewrite <- app_assoc. }
  assert (Hr : exists data,
             fetch_crypto_data env default_max_retries w1 = (Ret data, w2)).
  { subst w2. unfold fetch_crypto_data. rewrite fetch_loop_run. now eexists. }
  destruct Hr as [data Hr]. rewrite Hr.
  destruct data as [[| record rest] |].
  - left. cbn [truthy_data negb orb snd trace]. rewrite Hf, <- app_assoc.
    now rewrite skipn_app_length.
  - right. exists (record :: rest). split; [reflexivity |]. split; [discriminate |].
    cbn [truthy_data negb len_data len List.length Nat.eqb orb].
    destruct (export_no_io env (record :: rest) default_directory w2)
      as [_ [_ [_ Htrace]]].
    destruct (save_to_excel env (record :: rest) default_directory w2)
      as [[r | e] w3] eqn:Hsave.
    + cbn [snd fst] in *.
      assert (Hlast : forall m, skipn (List.length (trace w)) (trace w3 ++ [EvPrint m]) =
                EvPrint MsgStarting :: fetch_new_events env default_max_retries w1
                  ++ export_events env (record :: rest) default_directory w2
                  ++ [EvPrint m]).
      { intros m. rewrite Htrace, Hf, <- !app_assoc, skipn_app_length.
        cbn [app]. now rewrite <- ?app_assoc. }
      destruct r as [p |]; [| cbn; apply Hlast].
      assert (Hp : fst (save_to_excel env (record :: rest) default_directory w2)
                   = Ret (Some p)) by now rewrite Hsave.
      apply export_success in Hp. destruct Hp as [-> _].
      unfold truthy_path. rewrite export_path_nonempty. cbn. apply Hlast.
    + destruct (save_to_excel_returns env (record :: rest) default_directory w2)
        as [v [w' Hret]]. congruence.
  - left. cbn [truthy_data negb orb snd trace]. rewrite Hf, <- app_assoc.
    now rewrite skipn_app_length.
Qed.

End MainRuns.

Lemma written_fetch_events (env : environment) (max_retries : Z) (attempts : list Z) :
  forall first, written (fetch_events env max_retries first attempts) = [].
Proof.
  assert (Ha : forall a o, written (attempt_events max_retries a o) = []).
  { intros a o. unfold attempt_events. destruct o as [e | r]; cbn; [reflexivity |].
    destruct (status_code r =? 200).
    - destruct (json r); reflexivity.
    - destruct (status_code r =? 429); reflexivity. }
  induction attempts as [| a rest IH]; intros first; [reflexivity |].
  cbn [fetch_events]. rewrite written_app, Ha.
  destruct (parsed (http env first)); [reflexivity | apply IH].
Qed.

Lemma export_success_found (env : environment) (data : Snapshot) (directory : string)
    (w : world) (path : string) :
  fst (save_to_excel env data directory w) = Ret (Some path) ->
  path_exists env path = true.
Proof.
  rewrite save_to_excel_run, save_to_excel_body_run. cbn zeta.
  destruct (makedirs_raises env directory); [discriminate |].
  destruct (filter _ (kept_columns _ columns_to_keep)); [| discriminate].
  destruct (to_excel_raises env _ _); [discriminate |].
  destruct (path_exists env (export_path env directory w)) eqn:Hex; [| discriminate].
  destruct (path_getsize env _); [discriminate |].
  cbn [fst]. now intros [= <-].
Qed.

Section MainProperties.

Variable env : environment.

(** X14.  One run of [main] issues at most three requests, sleeps at most
    180 seconds in total, and writes at most one file. *)
Theorem main_bounded (w : world) :
  (count_requests (io_of (main_events env w)) <= 3)%nat /\
  0 <= total_wait (io_of (main_events env w)) <= 180 /\
  (List.length (written (main_events env w)) <= 1)%nat.
Proof.
  set (w1 := mkWorld (n_get w) (n_now w) (trace w ++ [EvPrint MsgStarting])).
  destruct (fetch_events_io env default_max_retries (range default_max_retries) (n_get w1))
    as [Hc [Hw _]].
  pose proof (attempts_made_le env (List.length (range default_max_retries)) (n_get w1))
    as Hle.
  rewrite length_range in Hle. change (Z.to_nat default_max_retries) with 3%nat in Hle.
  rewrite <- fetch_new_events_run in Hc, Hw.
  assert (Hmain : io_of (main_events env w)
                  = io_of (fetch_new_events env default_max_retries w1) /\
                  (List.length (written (main_events env w)) <= 1)%nat).
  { destruct (main_events_cases env w) as [Hev | [snapshot [_ [_ Hev]]]]; fold w1 in Hev;
      rewrite Hev; cbn [io_of written]; rewrite !io_of_app, !written_app;
      rewrite (fetch_new_events_run env default_max_retries w1), written_fetch_events.
    - cbn [io_of written app List.length]. rewrite app_nil_r. split; [reflexivity | lia].
    - destruct (export_no_io env snapshot default_directory
                  (snd (fetch_crypto_data env default_max_retries w1)))
        as [Hio [_ [Hone _]]].
      rewrite Hio. cbn [io_of written app]. rewrite !app_nil_r.
      split; [reflexivity | exact Hone]. }
  destruct Hmain as [Hio Hone]. rewrite Hio, Hc.
  change (List.length (range default_max_retries)) with 3%nat in *.
  repeat split; try lia; exact Hone.
Qed.

(** What [main] adds to the trace, by the result of its fetch. *)
Lemma main_events_by_fetch (w : world) :
  (main_events env w =
     EvPrint MsgStarting :: fetch_new_events env default_max_retries (started w)
       ++ [EvPrint MsgNoData] /\
   (fst (main_fetch env w) = Ret None \/ fst (main_fetch env w) = Ret (Some []))) \/
  (exists snapshot,
      fst (main_fetch env w) = Ret (Some snapshot) /\
      snapshot <> [] /\
      main_events env w =
        EvPrint MsgStarting :: fetch_new_events env default_max_retries (started w)
          ++ export_events env snapshot default_directory (snd (main_fetch env w))
          ++ [EvPrint match fst (save_to_excel env snapshot default_directory
                                   (snd (main_fetch env w))) with
                      | Ret (Some p) => MsgCompleted p
                      | _ => MsgSaveFailed
                      end]).
Proof.
  set (w1 := started w). set (w2 := snd (main_fetch env w)).
  unfold main_events. rewrite main_run. fold (started w). fold w1.
  assert (Hf : trace w2 = trace w ++ EvPrint MsgStarting
                           :: fetch_new_events env default_max_retries w1).
  { subst w2. unfold main_fetch. fold w1. rewrite fetch_new_events_run.
    unfold fetch_crypto_data. rewrite fetch_loop_run. subst w1. unfold started.
    cbn [snd trace n_get]. now rewrite <- app_assoc. }
  assert (Hr : exists data,
             fetch_crypto_data env default_max_retries w1 = (Ret data, w2)).
  { subst w2. unfold main_fetch. fold w1. unfold fetch_crypto_data.
    rewrite fetch_loop_run. now eexists. }
  destruct Hr as [data Hr].
  assert (Hfst : fst (main_fetch env w) = Ret data).
  { unfold main_fetch. fold w1. now rewrite Hr. }
  rewrite Hfst, Hr.
  destruct data as [[| record rest] |].
  - left. cbn [truthy_data negb orb snd trace]. rewrite Hf, <- app_assoc.
    rewrite skipn_app_length. split; [reflexivity | now right].
  - right. exists (record :: rest). split; [reflexivity |]. split; [discriminate |].
    cbn [truthy_data negb len_data len List.length Nat.eqb orb].
    destruct (export_no_io env (record :: rest) default_directory w2)
      as [_ [_ [_ Htrace]]].
    destruct (save_to_excel env (record :: rest) default_directory w2)
      as [[r | e] w3] eqn:Hsave.
    + cbn [snd fst] in *.
      assert (Hlast : forall m, skipn (List.length (trace w)) (trace w3 ++ [EvPrint m]) =
                EvPrint MsgStarting :: fetch_new_events env default_max_retries w1
                  ++ export_events env (record :: rest) default_directory w2
                  ++ [EvPrint m]).
      { intros m. rewrite Htrace, Hf, <- !app_assoc, skipn_app_length.
        cbn [app]. now rewrite <- ?app_assoc. }
      destruct r as [p |]; [| cbn; apply Hlast].
      assert (Hp : fst (save_to_excel env (record :: rest) default_directory w2)
                   = Ret (Some p)) by now rewrite Hsave.
      apply export_success in Hp. destruct Hp as [-> _].
      unfold truthy_path. rewrite export_path_nonempty. cbn. apply Hlast.
    + destruct (save_to_excel_returns env (record :: rest) default_directory w2)
        as [v [w' Hret]]. congruence.
  - left. cbn [truthy_data negb orb snd trace]. rewrite Hf, <- app_assoc.
    rewrite skipn_app_length. split; [reflexivity | now left].
Qed.

(** X15.  The last thing [main] prints tells how its own run ended.  "No
    data" is printed exactly after a fetch that gave [None] or an empty
    list, and then nothing was written.  "Failed to save" is printed
    after the fetch of this run gave records and the export of these
    records, from the world the fetch left, returned [None].  "Completed"
    names the path that this export returned: a path under "data" at
    which the one file of the run has been written and found afterwards. *)
Theorem main_reports_status (w : world) :
  exists before m,
    main_events env w = before ++ [EvPrint m] /\
    ((m = MsgNoData /\
      (fst (main_fetch env w) = Ret None \/ fst (main_fetch env w) = Ret (Some [])) /\
      written (main_events env w) = []) \/
     (m = MsgSaveFailed /\
      exists snapshot,
        fst (main_fetch env w) = Ret (Some snapshot) /\
        snapshot <> [] /\
        fst (save_to_excel env snapshot default_directory (snd (main_fetch env w)))
          = Ret None) \/
     (exists p snapshot,
         m = MsgCompleted p /\
         fst (main_fetch env w) = Ret (Some snapshot) /\
         snapshot <> [] /\
         fst (save_to_excel env snapshot default_directory (snd (main_fetch env w)))
           = Ret (Some p) /\
         written (main_events env w)
           = [(p, export_frame env snapshot (snd (main_fetch env w)))] /\
         path_exists env p = true /\
         String.prefix "data/crypto_data_" p = true)).
Proof.
  set (w2 := snd (main_fetch env w)).
  destruct (main_events_by_fetch w) as [[Hev Hdata] | [snapshot [Hdata [Hne Hev]]]];
    try fold w2 in Hev; rewrite Hev.
  - exists (EvPrint MsgStarting :: fetch_new_events env default_max_retries (started w)),
      MsgNoData.
    split; [reflexivity |]. left. split; [reflexivity |]. split; [exact Hdata |].
    cbn [written]. rewrite written_app, fetch_new_events_run, written_fetch_events.
    reflexivity.
  - exists (EvPrint MsgStarting :: fetch_new_events env default_max_retries (started w)
              ++ export_events env snapshot default_directory w2).
    eexists. split; [cbn [app]; now rewrite <- app_assoc |].
    destruct (save_to_excel_returns env snapshot default_directory w2) as [r [w3 Hret]].
    rewrite Hret. cbn [fst]. destruct r as [p |].
    + right. right. exists p, snapshot.
      assert (Hp : fst (save_to_excel env snapshot default_directory w2) = Ret (Some p))
        by now rewrite Hret.
      split; [reflexivity |]. split; [exact Hdata |]. split; [exact Hne |].
      split; [exact Hp |].
      destruct (export_success env snapshot default_directory w2 p Hp)
        as [Hpath [_ [size Hex]]].
      split.
      * cbn [written]. rewrite !written_app, fetch_new_events_run, written_fetch_events.
        rewrite Hex. cbn [app written]. rewrite written_app, written_warnings.
        reflexivity.
      * split; [exact (export_success_found env snapshot default_directory w2 p Hp) |].
        rewrite Hpath. reflexivity.
    + right. left. split; [reflexivity |]. exists snapshot.
      split; [exact Hdata |]. split; [exact Hne |].
      change (fst (save_to_excel env snapshot default_directory w2) = Ret None).
      now rewrite Hret.
Qed.

End MainProperties.

(* ===================================================================== *)
(** ** The further properties at sample inputs *)
(* ===================================================================== *)


Lemma fetch_request_count_witness :
  count_requests (io_of (fetch_new_events (sample_env answers_500) (-2) initial_world)) = 0%nat.
Proof.
  apply (proj2 (proj1 (proj2 (fetch_request_count (sample_env answers_500) (-2)
                                initial_world)))).
  lia.
Defined.

Lemma fetch_quotes_at_most_200_witness :
  (String.length (slice_to 200 long_text) <= 200)%nat /\
  exists k r,
    (n_get initial_world <= k < n_get initial_world + Z.to_nat 3)%nat /\
    http (sample_env answers_long_500) k = inr r /\
    status_code r <> 200 /\ status_code r <> 429 /\
    String.prefix (slice_to 200 long_text) (text r) = true /\
    ((String.length (text r) <= 200)%nat -> slice_to 200 long_text = text r).
Proof.
  apply (fetch_quotes_at_most_200 (sample_env answers_long_500) 3 initial_world).
  vm_compute. left. reflexivity.
Defined.

Lemma export_returns_path_iff_witness :
  "data/crypto_data_2024-03-05.xlsx" = export_path (sample_env answers_500) "data" initial_world /\
  makedirs_raises (sample_env answers_500) "data" = None /\
  adjacent_absent (frame_columns sample_snapshot) columns_to_keep = false /\
  to_excel_raises (sample_env answers_500)
    (export_path (sample_env answers_500) "data" initial_world)
    (export_frame (sample_env answers_500) sample_snapshot initial_world) = None /\
  path_exists (sample_env answers_500)
    (export_path (sample_env answers_500) "data" initial_world) = true /\
  exists size,
    path_getsize (sample_env answers_500)
      (export_path (sample_env answers_500) "data" initial_world) = inr size.
Proof.
  apply (proj1 (export_returns_path_iff (sample_env answers_500) sample_snapshot "data"
                  initial_world "data/crypto_data_2024-03-05.xlsx")).
  vm_compute. reflexivity.
Defined.

Lemma export_warnings_sound_witness :
  In "id" (absent_columns snapshot_without_id_symbol).
Proof.
  apply (proj2 (export_warnings_sound (sample_env answers_500) snapshot_without_id_symbol
                  "data" initial_world)).
  vm_compute. left. reflexivity.
Defined.

Lemma check_columns_partition_witness :
  exists kept,
    fst (check_columns (len columns_to_keep) (frame_columns snapshot_without_id_symbol) 0
           columns_to_keep initial_world) = Ret kept /\
    Permutation
      (kept ++ warnings_in
                 (skipn (List.length (trace initial_world))
                    (trace (snd (check_columns (len columns_to_keep)
                                   (frame_columns snapshot_without_id_symbol) 0
                                   columns_to_keep initial_world)))))
      columns_to_keep /\
    (forall c,
        In c (warnings_in
                (skipn (List.length (trace initial_world))
                   (trace (snd (check_columns (len columns_to_keep)
                                  (frame_columns snapshot_without_id_symbol) 0
                                  columns_to_keep initial_world))))) ->
        mem c (frame_columns snapshot_without_id_symbol) = false) /\
    (forall c, In c columns_to_keep ->
               mem c (frame_columns snapshot_without_id_symbol) = true -> In c kept).
Proof.
  apply (check_columns_partition (frame_columns snapshot_without_id_symbol)
           columns_to_keep initial_world).
  apply NoDup_columns_to_keep.
Defined.

Lemma export_columns_iff_witness :
  In "name" (df_columns (export_frame (sample_env answers_500)
                           [without_keys ["name"] (sample_record "bitcoin");
                            sample_record "ethereum"]
                           initial_world)).
Proof.
  apply (proj2 (export_columns_iff (sample_env answers_500)
                  [without_keys ["name"] (sample_record "bitcoin"); sample_record "ethereum"]
                  "data" initial_world "data/crypto_data_2024-03-05.xlsx"
                  ltac:(vm_compute; reflexivity) "name")).
  right. split.
  - cbn. tauto.
  - exists (sample_record "ethereum"). split; [right; now left | reflexivity].
Defined.

Lemma export_none_after_write_witness :
  fst (save_to_excel vanishing_env sample_snapshot "data" initial_world) = Ret None /\
  written (export_events vanishing_env sample_snapshot "data" initial_world) =
    [(export_path vanishing_env "data" initial_world,
      export_frame vanishing_env sample_snapshot initial_world)].
Proof.
  apply (export_none_after_write vanishing_env sample_snapshot "data" initial_world).
  - reflexivity.
  - vm_compute. reflexivity.
  - reflexivity.
  - left. reflexivity.
Defined.

Lemma export_path_same_day_iff_witness :
  export_path (sample_env_at sample_time) "data" initial_world =
  export_path (sample_env_at (mkDatetime 2024 3 5 23 59 58)) "data" initial_world.
Proof.
  apply (proj2 (export_path_same_day_iff (sample_env_at sample_time)
                  (sample_env_at (mkDatetime 2024 3 5 23 59 58)) "data"
                  initial_world initial_world
                  ltac:(unfold valid_datetime; cbn; lia)
                  ltac:(unfold valid_datetime; cbn; lia))).
  cbn. repeat split.
Defined.

Lemma strftime_datetime_injective_witness :
  clock (sample_env answers_500) 1 = sample_time.
Proof.
  apply (strftime_datetime_injective (clock (sample_env answers_500) 1) sample_time).
  - unfold valid_datetime. cbn. lia.
  - unfold valid_datetime. cbn. lia.
  - reflexivity.
Defined.
